(** * Message formatter: the submit handler of [src/App.tsx]

    A shallow embedding of the form component: its constants
    ([SYSTEM_MESSAGE], [AI_PROMPT], [MODE_INSTRUCTIONS]), the instruction
    builder [getModeInstruction] and the asynchronous handler
    [handleSubmit], followed by the properties of the specification.

    Strings are sequences of UTF-16 code units; the handler is a program over
    the actions it performs (state setters, [console.error],
    [event.preventDefault]) and the promises it awaits ([fetch],
    [response.json]).  Rendering, the scroll effect and the clipboard button
    take no part in what a submission computes and are left out. *)

From Stdlib Require Import ZArith QArith List String Ascii Lia.
From stdpp Require Import base option list gmap.
Import ListNotations.

Local Open Scope Z_scope.

(** ** ECMAScript strings

    A string value is a finite sequence of 16-bit code units. *)

Abbreviation jstring := (list Z).

(** The code units of an ASCII literal. *)
Definition js (s : string) : jstring :=
  map (fun a => Z.of_N (N_of_ascii a)) (list_ascii_of_string s).
Arguments js s%_string.

Definition LF : Z := 10.

(** Source lines of a template literal: every line is closed by a line feed. *)
Definition lines (l : list jstring) : jstring :=
  concat (map (fun ln => ln ++ [LF]) l).

(** [WhiteSpace] and [LineTerminator] code points, the ones
    [String.prototype.trim] strips. *)
Definition is_white_space (c : Z) : bool :=
  (c =? 9) || (c =? 10) || (c =? 11) || (c =? 12) || (c =? 13) || (c =? 32)
  || (c =? 160) || (c =? 5760) || ((8192 <=? c) && (c <=? 8202))
  || (c =? 8232) || (c =? 8233) || (c =? 8239) || (c =? 8287)
  || (c =? 12288) || (c =? 65279).

Fixpoint trimStart (s : jstring) : jstring :=
  match s with
  | c :: rest => if is_white_space c then trimStart rest else s
  | [] => []
  end.

Definition trimEnd (s : jstring) : jstring := rev (trimStart (rev s)).

(** [s.trim()] *)
Definition trim (s : jstring) : jstring := trimEnd (trimStart s).

(** [hay.includes(needle)] as a proposition: [needle] occurs in [hay] as a
    contiguous run of code units. *)
Definition occurs_in (needle hay : jstring) : Prop :=
  exists before after, hay = before ++ needle ++ after.

Fixpoint startsWith (hay needle : jstring) : bool :=
  match needle, hay with
  | [], _ => true
  | _ :: _, [] => false
  | n :: needle', h :: hay' => (n =? h) && startsWith hay' needle'
  end.

(** [hay.includes(needle)] *)
Fixpoint includes (hay needle : jstring) : bool :=
  startsWith hay needle ||
  match hay with
  | [] => false
  | _ :: hay' => includes hay' needle
  end.

(** ** Values read from objects

    [MODE_INSTRUCTIONS[mode]] and [import.meta.env.VITE_OPENAI_API_KEY] are
    not always strings: a missing property reads as [undefined], and a key
    that the object literal does not define is looked up on
    [Object.prototype]. *)
Inductive value : Type :=
| VUndefined
| VString (s : jstring)
| VNative (name : jstring)     (* a built-in function object *)
| VObjectPrototype.            (* the object [Object.prototype] itself *)

(** [ToBoolean] *)
Definition ToBoolean (v : value) : bool :=
  match v with
  | VUndefined => false
  | VString [] => false
  | VString (_ :: _) => true
  | VNative _ => true
  | VObjectPrototype => true
  end.

(** [ToString], as applied by a template literal.  The text of a built-in
    function is the one V8 prints. *)
Definition ToString (v : value) : jstring :=
  match v with
  | VUndefined => js "undefined"
  | VString s => s
  | VNative name => js "function " ++ name ++ js "() { [native code] }"
  | VObjectPrototype => js "[object Object]"
  end.

(** ** Module constants *)

Definition SYSTEM_MESSAGE : jstring :=
  [LF] ++ lines
  [ js "You are a message formatter AI. Your task is to transform any input text into a polished, professional message suitable for client communication, strictly following the provided instructions.";
    [];
    js "**Guardrails**:";
    [];
    js "1. **Instruction Fidelity**:";
    js "   - Adhere strictly to the instructions given in each prompt without deviation.";
    js "   - Avoid overriding, disregarding, or adding to the instructions unless explicitly directed to do so by the prompt.";
    js "   - If unclear or conflicting information is present, prioritize clarity and professionalism, but do not invent or assume details beyond the prompt's content.";
    js "   - Always respect the communication mode specified (e.g., Email, Chat) and format the response accordingly.";
    [];
    js "2. **Input Clarity**:";
    js "   - If the input text does not provide a coherent or meaningful message, or if it lacks necessary information, prompt the user for a clearer, more complete input.";
    js "   ";
    js "Your goal is to consistently produce output that aligns exactly with the provided instructions, ensuring the response remains professional and suitable for client communication." ].

(** The template [AI_PROMPT]: both holes are filled by [ToString]; the
    first argument is always the string held in [inputMessage]. *)
Definition AI_PROMPT (userInput : jstring) (modeInstruction : value) : jstring :=
  [LF] ++ js "Raw Input Text: " ++ userInput ++ [LF]
  ++ [LF]
  ++ js "Instructions:" ++ [LF]
  ++ ToString modeInstruction ++ [LF]
  ++ lines
  [ js "Output Goal:";
    js "- Provide a clear, concise, and professionally rephrased message suitable for client communication.";
    js "- Ensure the message is error-free, respectful, and easy to understand." ].

Definition Email_instruction : jstring :=
  js "Compose a formal, professionally-worded email, including appropriate greetings and closing remarks for client communication.".

(** The apostrophe of this entry is U+2019. *)
Definition Chat_instruction : jstring :=
  js "Compose a friendly, concise chat message that" ++ [8217]
  ++ js "s suitable for instant messaging with a client. Use a warm, approachable greeting, and keep the tone polite yet slightly informal.".

Definition Report_instruction : jstring :=
  js "Create a structured, professional report with key points organized clearly, suitable for client presentation.".

Definition Notification_instruction : jstring :=
  js "Draft a concise and polite notification, focusing on essential details and clarity, suitable for quick client updates.".

(** The own properties of the object literal [MODE_INSTRUCTIONS]. *)
Definition MODE_INSTRUCTIONS : gmap jstring jstring :=
  <[js "Email" := Email_instruction]>
  (<[js "Chat" := Chat_instruction]>
  (<[js "Report" := Report_instruction]>
  (<[js "Notification" := Notification_instruction]> ∅))).

(** The string-keyed properties of [Object.prototype], the prototype of
    every object literal.  [constructor] is the function [Object]; the
    accessor [__proto__] yields the prototype of the receiver, which for an
    object literal is [Object.prototype]. *)
Definition Object_prototype : gmap jstring value :=
  <[js "constructor" := VNative (js "Object")]>
  (<[js "__defineGetter__" := VNative (js "__defineGetter__")]>
  (<[js "__defineSetter__" := VNative (js "__defineSetter__")]>
  (<[js "hasOwnProperty" := VNative (js "hasOwnProperty")]>
  (<[js "__lookupGetter__" := VNative (js "__lookupGetter__")]>
  (<[js "__lookupSetter__" := VNative (js "__lookupSetter__")]>
  (<[js "isPrototypeOf" := VNative (js "isPrototypeOf")]>
  (<[js "propertyIsEnumerable" := VNative (js "propertyIsEnumerable")]>
  (<[js "toString" := VNative (js "toString")]>
  (<[js "valueOf" := VNative (js "valueOf")]>
  (<[js "__proto__" := VObjectPrototype]>
  (<[js "toLocaleString" := VNative (js "toLocaleString")]> ∅))))))))))).

(** [MODE_INSTRUCTIONS[key]]: own properties first, then the prototype. *)
Definition MODE_INSTRUCTIONS_get (key : jstring) : value :=
  match MODE_INSTRUCTIONS !! key with
  | Some s => VString s
  | None =>
      match Object_prototype !! key with
      | Some v => v
      | None => VUndefined
      end
  end.

Definition default_instruction : jstring :=
  js "Provide a polite, professional message appropriate for client communication.".

(** ** Component state *)

Record FormState : Type := mkFormState {
  inputMessage : jstring;
  outputMessage : jstring;
  loading : bool;
  mode : jstring;
  customInstruction : jstring
}.

(** [useState] initial values. *)
Definition initial_state : FormState :=
  {| inputMessage := []; outputMessage := []; loading := false;
     mode := js "Email"; customInstruction := [] |}.

Definition handleInputChange (v : jstring) (s : FormState) : FormState :=
  {| inputMessage := v; outputMessage := outputMessage s; loading := loading s;
     mode := mode s; customInstruction := customInstruction s |}.

Definition handleModeChange (v : jstring) (s : FormState) : FormState :=
  {| inputMessage := inputMessage s; outputMessage := outputMessage s;
     loading := loading s; mode := v; customInstruction := customInstruction s |}.

Definition handleCustomInstructionChange (v : jstring) (s : FormState) : FormState :=
  {| inputMessage := inputMessage s; outputMessage := outputMessage s;
     loading := loading s; mode := mode s; customInstruction := v |}.

Definition enumerated_modes : list jstring :=
  [js "Email"; js "Chat"; js "Report"; js "Notification"].

(** [a || b] *)
Definition logical_or (a b : value) : value :=
  if ToBoolean a then a else b.

Definition getModeInstruction (s : FormState) : value :=
  let baseInstruction :=
    logical_or (MODE_INSTRUCTIONS_get (mode s)) (VString default_instruction) in
  if ToBoolean (VString (customInstruction s))
  then VString (ToString baseInstruction ++ js " " ++ customInstruction s)
  else baseInstruction.

(** ** Completions, thrown values and the response of the endpoint *)

Inductive thrown : Type :=
| TypeError                    (* property read on undefined/null, call of a non-function, failed fetch *)
| SyntaxError                  (* a body that is not JSON *)
| Error (message : jstring).   (* [new Error(message)] *)

(** The outcome of an expression or of a settled promise: a value, or a
    thrown value (a rejection reason). *)
Inductive completion (A : Type) : Type :=
| Normal (a : A)
| Throw (e : thrown).
Arguments Normal {A} a.
Arguments Throw {A} e.

(** A thrown value cuts the evaluation of what follows short. *)
Definition completion_bind {A B : Type} (f : A -> completion B) (c : completion A)
  : completion B :=
  match c with
  | Normal a => f a
  | Throw e => Throw e
  end.

#[export] Instance completion_mret : MRet completion := fun A a => Normal a.
#[export] Instance completion_mbind : MBind completion :=
  fun A B f c => completion_bind f c.

(** What [JSON.parse] builds. *)
#[local] Unset Elimination Schemes.
Inductive json : Type :=
| JNull
| JBool (b : bool)
| JNumber (n : Q)
| JString (s : jstring)
| JArray (elems : list json)
| JObject (props : gmap jstring json).
#[local] Set Elimination Schemes.

(** A [Response]: its status code and what [response.json()] settles to. *)
Record Response : Type := mkResponse {
  status : Z;
  json_body : completion json
}.

(** [response.ok]: the status is in the range 200-299. *)
Definition ok (r : Response) : bool := (200 <=? status r) && (status r <=? 299).

(** The keys [handleSubmit] reads from the parsed body, in
    [data.choices[0].message.content]. *)
Inductive data_key : Type := K_choices | K_0 | K_message | K_content.

Definition key_name (k : data_key) : jstring :=
  match k with
  | K_choices => js "choices"
  | K_0 => js "0"
  | K_message => js "message"
  | K_content => js "content"
  end.

(** The property read [v[k]] for one of these keys; [None] is [undefined].
    Reading a property of [undefined] or [null] throws; an object has its own
    properties (none of the four keys is inherited); an array or a string has
    its element 0 under the key [0]; numbers and booleans have none of them. *)
Definition GetV (v : option json) (k : data_key) : completion (option json) :=
  match v with
  | None | Some JNull => Throw TypeError
  | Some (JObject props) => Normal (props !! key_name k)
  | Some (JArray elems) =>
      match k with
      | K_0 => Normal (head elems)
      | _ => Normal None
      end
  | Some (JString s) =>
      match k, s with
      | K_0, c :: _ => Normal (Some (JString [c]))
      | _, _ => Normal None
      end
  | Some (JBool _) | Some (JNumber _) => Normal None
  end.

(** The method call [v.trim()]: only a string has a callable [trim]. *)
Definition call_trim (v : option json) : completion jstring :=
  match v with
  | Some (JString s) => Normal (trim s)
  | _ => Throw TypeError
  end.

(** ** The request *)

Record Message : Type := mkMessage {
  role : jstring;
  content : jstring
}.

(** The object literal passed to [JSON.stringify]. *)
Record ChatRequest : Type := mkChatRequest {
  model : jstring;
  messages : list Message;
  max_tokens : Q;
  temperature : Q
}.

(** The second argument of [fetch]. *)
Record RequestInit : Type := mkRequestInit {
  method : jstring;
  headers : list (jstring * jstring);
  body : jstring
}.

Definition hex_digit (d : Z) : Z := if d <? 10 then 48 + d else 87 + d.

(** [UnicodeEscape]: a backslash, [u] and four lower-case hexadecimal digits. *)
Definition UnicodeEscape (c : Z) : jstring :=
  [92; 117; hex_digit (c / 4096 mod 16); hex_digit (c / 256 mod 16);
   hex_digit (c / 16 mod 16); hex_digit (c mod 16)].

Definition is_leading_surrogate (c : Z) : bool := (55296 <=? c) && (c <=? 56319).
Definition is_trailing_surrogate (c : Z) : bool := (56320 <=? c) && (c <=? 57343).

(** One code unit that is not part of a surrogate pair, as [QuoteJSONString]
    writes it. *)
Definition quote_unit (c : Z) : jstring :=
  if c =? 8 then [92; 98]
  else if c =? 9 then [92; 116]
  else if c =? 10 then [92; 110]
  else if c =? 12 then [92; 102]
  else if c =? 13 then [92; 114]
  else if c =? 34 then [92; 34]
  else if c =? 92 then [92; 92]
  else if (c <? 32) || is_leading_surrogate c || is_trailing_surrogate c
       then UnicodeEscape c
  else [c].

Fixpoint quote_units (s : jstring) : jstring :=
  match s with
  | [] => []
  | c :: rest =>
      match rest with
      | d :: rest' =>
          if is_leading_surrogate c && is_trailing_surrogate d
          then c :: d :: quote_units rest'
          else quote_unit c ++ quote_units rest
      | [] => quote_unit c
      end
  end.

(** [QuoteJSONString] *)
Definition QuoteJSONString (s : jstring) : jstring :=
  [34] ++ quote_units s ++ [34].

(** A fragment of JSON text written with apostrophes for its quotation
    marks. *)
Definition json_text (s : string) : jstring :=
  map (fun c => if c =? 39 then 34 else c) (js s).
Arguments json_text s%_string.

(** Elements separated by commas. *)
Fixpoint comma_separated (l : list jstring) : jstring :=
  match l with
  | [] => []
  | [x] => x
  | x :: rest => x ++ js "," ++ comma_separated rest
  end.

(** ** Effects of the handler

    [handleSubmit] is an [async] function: it performs state updates and
    console output, and it suspends at each [await].  A [task] is what is
    left of such a function: it has completed, or it performs an action and
    goes on, or it waits for a promise and goes on with what the promise
    settles to. *)

Inductive action : Type :=
| PreventDefault                                 (* [event.preventDefault()] *)
| SetLoading (b : bool)
| SetOutputMessage (s : jstring)
| ConsoleError (label : jstring) (error : thrown).

Inductive task (A : Type) : Type :=
| Done (r : completion A)
| Act (a : action) (k : task A)
| AwaitFetch (url : jstring) (init : RequestInit) (k : completion Response -> task A)
| AwaitJson (response : Response) (k : completion json -> task A).
Arguments Done {A} r.
Arguments Act {A} a k.
Arguments AwaitFetch {A} url init k.
Arguments AwaitJson {A} response k.

Fixpoint task_bind {A B : Type} (f : A -> task B) (t : task A) : task B :=
  match t with
  | Done (Normal a) => f a
  | Done (Throw e) => Done (Throw e)
  | Act a k => Act a (task_bind f k)
  | AwaitFetch url init k => AwaitFetch url init (fun r => task_bind f (k r))
  | AwaitJson response k => AwaitJson response (fun r => task_bind f (k r))
  end.

#[export] Instance task_mret : MRet task := fun A a => Done (Normal a).
#[export] Instance task_mbind : MBind task := fun A B f t => task_bind f t.

Definition throw {A : Type} (e : thrown) : task A := Done (Throw e).
Definition perform (a : action) : task unit := Act a (mret tt).
Definition lift {A : Type} (c : completion A) : task A := Done c.

(** [await fetch(url, init)] and [await response.json()]: a rejection is
    thrown at the [await]. *)
Definition await_fetch (url : jstring) (init : RequestInit) : task Response :=
  AwaitFetch url init lift.
Definition await_json (response : Response) : task json :=
  AwaitJson response lift.

(** [try { t } catch (error) { handler error }] *)
Fixpoint try_catch {A : Type} (t : task A) (handler : thrown -> task A) : task A :=
  match t with
  | Done (Normal a) => Done (Normal a)
  | Done (Throw e) => handler e
  | Act a k => Act a (try_catch k handler)
  | AwaitFetch url init k => AwaitFetch url init (fun r => try_catch (k r) handler)
  | AwaitJson response k => AwaitJson response (fun r => try_catch (k r) handler)
  end.

(** [try { t } finally { finalizer }]: the finalizer runs on every way out
    and the completion of [t] is kept unless the finalizer throws. *)
Fixpoint try_finally {A : Type} (t : task A) (finalizer : task unit) : task A :=
  match t with
  | Done r => finalizer ≫= fun _ => Done r
  | Act a k => Act a (try_finally k finalizer)
  | AwaitFetch url init k => AwaitFetch url init (fun r => try_finally (k r) finalizer)
  | AwaitJson response k => AwaitJson response (fun r => try_finally (k r) finalizer)
  end.

Definition apply_action (a : action) (s : FormState) : FormState :=
  match a with
  | SetLoading b =>
      {| inputMessage := inputMessage s; outputMessage := outputMessage s;
         loading := b; mode := mode s; customInstruction := customInstruction s |}
  | SetOutputMessage o =>
      {| inputMessage := inputMessage s; outputMessage := o;
         loading := loading s; mode := mode s;
         customInstruction := customInstruction s |}
  | PreventDefault | ConsoleError _ _ => s
  end.

(** What an observer of the page sees the handler do, in order. *)
Inductive event : Type :=
| Performed (a : action)
| Fetched (url : jstring) (init : RequestInit)   (* a network call *)
| ReadBody (response : Response).

(** The network: what the promise of each [fetch] call settles to. *)
Definition network : Type := jstring -> RequestInit -> completion Response.

(** Runs a task to completion against a network: the final state, the
    events in order, and the completion. *)
Fixpoint run {A : Type} (net : network) (t : task A) (s : FormState)
  : FormState * list event * completion A :=
  match t with
  | Done r => (s, [], r)
  | Act a k =>
      let '(s', tr, r) := run net k (apply_action a s) in
      (s', Performed a :: tr, r)
  | AwaitFetch url init k =>
      let '(s', tr, r) := run net (k (net url init)) s in
      (s', Fetched url init :: tr, r)
  | AwaitJson response k =>
      let '(s', tr, r) := run net (k (json_body response)) s in
      (s', ReadBody response :: tr, r)
  end.

(** Where a task stands once it has run as far as it can without the
    network answering. *)
Inductive standing (A : Type) : Type :=
| Completed (s : FormState) (r : completion A)
| WaitingForFetch (s : FormState) (url : jstring) (init : RequestInit)
    (k : completion Response -> task A)
| WaitingForBody (s : FormState) (response : Response)
    (k : completion json -> task A).
Arguments Completed {A} s r.
Arguments WaitingForFetch {A} s url init k.
Arguments WaitingForBody {A} s response k.

(** Runs a task up to its first [await]. *)
Fixpoint run_to_await {A : Type} (t : task A) (s : FormState)
  : list event * standing A :=
  match t with
  | Done r => ([], Completed s r)
  | Act a k =>
      let '(tr, st) := run_to_await k (apply_action a s) in
      (Performed a :: tr, st)
  | AwaitFetch url init k => ([], WaitingForFetch s url init k)
  | AwaitJson response k => ([], WaitingForBody s response k)
  end.

Definition is_network_call (e : event) : bool :=
  match e with
  | Fetched _ _ => true
  | _ => false
  end.

Definition network_calls (tr : list event) : list event :=
  filter (fun e => is_network_call e = true) tr.

(** ** The submit handler *)

Section Handler.

(** [import.meta.env.VITE_OPENAI_API_KEY], fixed when the bundle is built. *)
Variable openAiApiKey : value.

(** [Number::toString], the decimal text of a number. *)
Variable Number_toString : Q -> jstring.

Definition stringify_message (m : Message) : jstring :=
  js "{" ++ QuoteJSONString (js "role") ++ js ":" ++ QuoteJSONString (role m)
  ++ js "," ++ QuoteJSONString (js "content") ++ js ":"
  ++ QuoteJSONString (content m) ++ js "}".

(** [JSON.stringify] of the request object: the properties in the order of
    the literal, without white space. *)
Definition JSON_stringify (r : ChatRequest) : jstring :=
  js "{" ++ QuoteJSONString (js "model") ++ js ":" ++ QuoteJSONString (model r)
  ++ js "," ++ QuoteJSONString (js "messages") ++ js ":"
  ++ js "[" ++ comma_separated (map stringify_message (messages r)) ++ js "]"
  ++ js "," ++ QuoteJSONString (js "max_tokens") ++ js ":"
  ++ Number_toString (max_tokens r)
  ++ js "," ++ QuoteJSONString (js "temperature") ++ js ":"
  ++ Number_toString (temperature r) ++ js "}".

Definition endpoint : jstring := js "https://api.openai.com/v1/chat/completions".

Definition request_init (s : FormState) : RequestInit :=
  {| method := js "POST";
     headers :=
       [ (js "Content-Type", js "application/json");
         (js "Authorization", js "Bearer " ++ ToString openAiApiKey) ];
     body :=
       JSON_stringify
         {| model := js "gpt-4";
            messages :=
              [ {| role := js "system"; content := SYSTEM_MESSAGE |};
                {| role := js "user";
                   content := AI_PROMPT (inputMessage s) (getModeInstruction s) |} ];
            max_tokens := 1000;
            temperature := 0.5 |} |}.

(** [data.choices[0].message.content.trim()] *)
Definition read_content (data : json) : completion jstring :=
  choices ← GetV (Some data) K_choices;
  first ← GetV choices K_0;
  message ← GetV first K_message;
  c ← GetV message K_content;
  call_trim c.

Definition failure_message : jstring :=
  js "Sorry, something went wrong. Please try again.".

Definition handleSubmit (s : FormState) : task unit :=
  perform PreventDefault;;
  if negb (ToBoolean (VString (trim (inputMessage s)))) then mret tt
  else
    perform (SetLoading true);;
    perform (SetOutputMessage []);;
    try_finally
      (try_catch
         (response ← await_fetch endpoint (request_init s);
          (if negb (ok response)
           then throw (Error (js "Failed to fetch response from OpenAI API"))
           else mret tt);;
          data ← await_json response;
          text ← lift (read_content data);
          perform (SetOutputMessage text))
         (fun error =>
            perform (ConsoleError (js "Error calling OpenAI API:") error);;
            perform (SetOutputMessage failure_message)))
      (perform (SetLoading false)).

(** One submission: the handler run on the state it closes over. *)
Definition submit (net : network) (s : FormState)
  : FormState * list event * completion unit :=
  run net (handleSubmit s) s.

End Handler.

(** The components of the result of a run. *)
Definition final_state {A : Type} (x : FormState * list event * completion A)
  : FormState := x.1.1.
Definition trace {A : Type} (x : FormState * list event * completion A)
  : list event := x.1.2.

(** ** The expected shape of a response body

    A body has the expected shape when it is an object whose
    [choices[0].message.content] is a string: [choices] holds an element
    under the key 0 (the first element of an array, or the property [0] of an
    object), that element is an object whose [message] is an object whose
    [content] is a string. *)
Inductive element_zero : json -> json -> Prop :=
| zero_of_array first rest : element_zero (JArray (first :: rest)) first
| zero_of_object props first :
    props !! js "0" = Some first -> element_zero (JObject props) first.

Inductive expected_shape : json -> jstring -> Prop :=
| shape props choices first_props message_props text :
    props !! js "choices" = Some choices ->
    element_zero choices (JObject first_props) ->
    first_props !! js "message" = Some (JObject message_props) ->
    message_props !! js "content" = Some (JString text) ->
    expected_shape (JObject props) text.

(** The ways a submission fails: the network call is rejected, the status
    is not 2xx, the body is not JSON, or the body has not the expected
    shape. *)
Inductive failed : completion Response -> Prop :=
| network_error e : failed (Throw e)
| bad_status response :
    ~ (200 <= status response <= 299) -> failed (Normal response)
| unreadable_body response e :
    json_body response = Throw e -> failed (Normal response)
| unexpected_shape response data :
    json_body response = Normal data ->
    (forall text, ~ expected_shape data text) ->
    failed (Normal response).

(** What a settled [fetch] amounts to for the handler: the text to show, or
    the value thrown inside the [try] block. *)
Definition reply_text (r : completion Response) : completion jstring :=
  match r with
  | Throw e => Throw e
  | Normal response =>
      if ok response then
        match json_body response with
        | Throw e => Throw e
        | Normal data => read_content data
        end
      else Throw (Error (js "Failed to fetch response from OpenAI API"))
  end.

(** ** A sample runtime

    Decimal text of a number with a terminating decimal expansion, as
    [Number::toString] writes the literals of the request. *)
Fixpoint fraction_digits (fuel : nat) (num den : Z) : jstring :=
  match fuel with
  | O => []
  | S fuel' =>
      if num =? 0 then []
      else (48 + num * 10 / den) :: fraction_digits fuel' (num * 10 mod den) den
  end.

Fixpoint integer_digits (fuel : nat) (n : Z) (acc : jstring) : jstring :=
  match fuel with
  | O => acc
  | S fuel' =>
      if n <? 10 then (48 + n) :: acc
      else integer_digits fuel' (n / 10) ((48 + n mod 10) :: acc)
  end.

Definition decimal_text (q : Q) : jstring :=
  let n := Z.abs (Qnum q) in
  let d := Z.pos (Qden q) in
  (if Qnum q <? 0 then js "-" else [])
  ++ integer_digits 22 (n / d) []
  ++ (if n mod d =? 0 then [] else js "." ++ fraction_digits 17 (n mod d) d).

Module Sample.

Definition key : value := VString (js "sk-test").

Definition draft : FormState :=
  handleInputChange (js "pls send the report tmrw") initial_state.

Definition reply : json :=
  JObject {[ js "choices" :=
    JArray [ JObject {[ js "message" :=
      JObject {[ js "content" := JString (js " Hello, client. ") ]} ]} ] ]}.

Definition blank : FormState :=
  apply_action (SetOutputMessage (js "Dear client, ..."))
    (handleInputChange [10; 9] initial_state).

Definition chat_brief : FormState :=
  handleCustomInstructionChange (js "Keep it short.")
    (handleModeChange (js "Chat") initial_state).

(** The draft with an earlier answer still displayed. *)
Definition answered : FormState :=
  apply_action (SetOutputMessage (js "Dear client, ...")) draft.

Definition answering (r : completion Response) : network := fun _ _ => r.

Definition success : network :=
  answering (Normal {| status := 200; json_body := Normal reply |}).

Definition server_error : network :=
  answering (Normal {| status := 500; json_body := Normal reply |}).

Definition offline : network := answering (Throw TypeError).

(** No key configured. *)
Definition no_key : value := VUndefined.

(** A body without a completion. *)
Definition empty_choices : json := JObject {[ js "choices" := JArray [] ]}.

Definition no_completion : network :=
  answering (Normal {| status := 200; json_body := Normal empty_choices |}).

End Sample.

(** The events that follow the network call, given what it settled to. *)
Definition aftermath (r : completion Response) : list event :=
  match r with
  | Normal response => if ok response then [ReadBody response] else []
  | Throw _ => []
  end
  ++ match reply_text r with
     | Normal text => [Performed (SetOutputMessage text)]
     | Throw e =>
         [Performed (ConsoleError (js "Error calling OpenAI API:") e);
          Performed (SetOutputMessage failure_message)]
     end
  ++ [Performed (SetLoading false)].

(** The state a submission settles in. *)
Definition settle (s : FormState) (r : completion Response) : FormState :=
  {| inputMessage := inputMessage s;
     outputMessage :=
       match reply_text r with
       | Normal text => text
       | Throw _ => failure_message
       end;
     loading := false; mode := mode s;
     customInstruction := customInstruction s |}.

(** The string keys that an object literal inherits from
    [Object.prototype]. *)
Definition inherited_keys : list jstring :=
  [js "constructor"; js "__defineGetter__"; js "__defineSetter__";
   js "hasOwnProperty"; js "__lookupGetter__"; js "__lookupSetter__";
   js "isPrototypeOf"; js "propertyIsEnumerable"; js "toString";
   js "valueOf"; js "__proto__"; js "toLocaleString"].

(** What [getModeInstruction] returns when the fallback is taken. *)
Definition fallback_instruction (s : FormState) : value :=
  match customInstruction s with
  | [] => VString default_instruction
  | _ :: _ => VString (default_instruction ++ js " " ++ customInstruction s)
  end.

(** ** What the component renders

    The parts of the returned element that depend on the state: the values
    of the two text areas and of the selector, the submit button (disabled
    while [loading], with its label), and the block under the form, which
    [outputMessage && ...] renders only for a non-empty [outputMessage] and
    whose inner HTML is then [outputMessage] as it is. *)
Record View : Type := mkView {
  input_value : jstring;
  select_value : jstring;
  custom_value : jstring;
  submit_disabled : bool;
  submit_label : jstring;
  output_html : option jstring
}.

Definition render (s : FormState) : View :=
  {| input_value := inputMessage s;
     select_value := mode s;
     custom_value := customInstruction s;
     submit_disabled := loading s;
     submit_label :=
       if loading s then js "Formatting..." else js "Format Message";
     output_html :=
       if ToBoolean (VString (outputMessage s)) then Some (outputMessage s)
       else None |}.

(** The effect that follows a change of [outputMessage]: it scrolls the
    block into view when [outputMessage] is non-empty and [outputRef] is
    attached, that is, when the block is rendered. *)
Definition scrolls_into_view (s : FormState) : bool :=
  ToBoolean (VString (outputMessage s))
  && bool_decide (is_Some (output_html (render s))).

(** ** Reading a JSON string back

    The code units a string value can hold. *)
Definition code_unit (c : Z) : bool := (0 <=? c) && (c <? 65536).

Definition hex_value (h : Z) : Z := if h <? 58 then h - 48 else h - 87.

(** The character a two-character escape stands for. *)
Definition unescape (e : Z) : option Z :=
  if e =? 98 then Some 8
  else if e =? 116 then Some 9
  else if e =? 110 then Some 10
  else if e =? 102 then Some 12
  else if e =? 114 then Some 13
  else if e =? 34 then Some 34
  else if e =? 92 then Some 92
  else if e =? 47 then Some 47
  else None.

Definition prepend (c : Z) (r : option (jstring * jstring))
  : option (jstring * jstring) :=
  match r with
  | Some (s, after) => Some (c :: s, after)
  | None => None
  end.

(** Reads the characters of a JSON string, from after its opening quotation
    mark up to its closing one: the string they stand for and what follows
    the closing mark. *)
Fixpoint read_json_string (t : jstring) : option (jstring * jstring) :=
  match t with
  | [] => None
  | c :: rest =>
      if c =? 34 then Some ([], rest)
      else if c =? 92 then
        match rest with
        | [] => None
        | e :: rest1 =>
            if e =? 117 then
              match rest1 with
              | h3 :: h2 :: h1 :: h0 :: rest5 =>
                  prepend (4096 * hex_value h3 + 256 * hex_value h2
                           + 16 * hex_value h1 + hex_value h0)
                    (read_json_string rest5)
              | _ => None
              end
            else
              match unescape e with
              | Some c' => prepend c' (read_json_string rest1)
              | None => None
              end
        end
      else prepend c (read_json_string rest)
  end.

(** * Properties *)

(** ** Evaluations *)

Example getModeInstruction_Email :
  getModeInstruction initial_state = VString Email_instruction.
Proof. vm_compute. reflexivity. Qed.

Example getModeInstruction_toString :
  getModeInstruction (handleModeChange (js "toString") initial_state)
  = VNative (js "toString").
Proof. vm_compute. reflexivity. Qed.

Example trim_examples :
  trim [] = [] /\ trim (js " ") = [] /\ trim [10; 9] = []
  /\ trim (js " Hello, client. ") = js "Hello, client.".
Proof. vm_compute. repeat split. Qed.

Example decimal_text_literals :
  decimal_text 1000 = js "1000" /\ decimal_text 0.5 = js "0.5".
Proof. vm_compute. split; reflexivity. Qed.

Example submit_sample_success :
  final_state (submit Sample.key decimal_text Sample.success Sample.draft)
  = {| inputMessage := js "pls send the report tmrw";
       outputMessage := js "Hello, client."; loading := false;
       mode := js "Email"; customInstruction := [] |}.
Proof. vm_compute. reflexivity. Qed.

(** ** Strings *)

Lemma trimStart_all_white s : forallb is_white_space s = true -> trimStart s = [].
Proof.
  induction s as [|c s IH]; simpl; [reflexivity|].
  intros H. apply andb_prop in H as [Hc Hs]. rewrite Hc. auto.
Qed.

Lemma trim_all_white s : forallb is_white_space s = true -> trim s = [].
Proof.
  intros H. unfold trim, trimEnd. rewrite (trimStart_all_white s H). reflexivity.
Qed.

Lemma startsWith_spec needle : forall hay,
  startsWith hay needle = true <-> exists after, hay = needle ++ after.
Proof.
  induction needle as [|n needle IH]; intros hay.
  - destruct hay; simpl; split; eauto.
  - destruct hay as [|h hay]; simpl.
    + split; [discriminate | intros [after H]; discriminate].
    + rewrite andb_true_iff, Z.eqb_eq, IH. split.
      * intros [-> [after ->]]. eauto.
      * intros [after H]. injection H as -> ->. eauto.
Qed.

Lemma includes_spec needle : forall hay,
  includes hay needle = true <-> occurs_in needle hay.
Proof.
  unfold occurs_in. induction hay as [|h hay IH].
  - cbn [includes]. rewrite orb_false_r, startsWith_spec. split.
    + intros [after H]. exists [], after. exact H.
    + intros [before [after H]]. destruct before as [|b before]; [|discriminate].
      eauto.
  - cbn [includes]. rewrite orb_true_iff, startsWith_spec, IH. split.
    + intros [[after H] | [before [after H]]].
      * exists [], after. exact H.
      * exists (h :: before), after. rewrite H. reflexivity.
    + intros [[|b before] [after H]].
      * left. eauto.
      * right. injection H as _ H. eauto.
Qed.

(** ** The catalogue *)

Lemma MODE_INSTRUCTIONS_lookup key entry :
  MODE_INSTRUCTIONS !! key = Some entry <->
  (key = js "Email" /\ entry = Email_instruction)
  \/ (key = js "Chat" /\ entry = Chat_instruction)
  \/ (key = js "Report" /\ entry = Report_instruction)
  \/ (key = js "Notification" /\ entry = Notification_instruction).
Proof.
  unfold MODE_INSTRUCTIONS.
  rewrite !lookup_insert_Some, lookup_empty. split.
  - intros [[<- <-]|[_ [[<- <-]|[_ [[<- <-]|[_ [[<- <-]|[_ H]]]]]]]];
      [tauto | tauto | tauto | tauto | discriminate].
  - intros [[-> ->]|[[-> ->]|[[-> ->]|[-> ->]]]].
    + left. done.
    + right. split; [discriminate|]. left. done.
    + right. split; [discriminate|]. right. split; [discriminate|]. left. done.
    + right. split; [discriminate|]. right. split; [discriminate|].
      right. split; [discriminate|]. left. done.
Qed.

Lemma MODE_INSTRUCTIONS_enumerated key :
  In key enumerated_modes <-> is_Some (MODE_INSTRUCTIONS !! key).
Proof.
  split.
  - intros [<-|[<-|[<-|[<-|[]]]]]; eexists; apply MODE_INSTRUCTIONS_lookup; tauto.
  - intros [entry H]. apply MODE_INSTRUCTIONS_lookup in H. simpl.
    destruct H as [[-> _]|[[-> _]|[[-> _]|[-> _]]]]; tauto.
Qed.

Lemma catalogue_entry_truthy key entry :
  MODE_INSTRUCTIONS !! key = Some entry -> ToBoolean (VString entry) = true.
Proof.
  intros H. apply MODE_INSTRUCTIONS_lookup in H.
  destruct H as [[_ ->]|[[_ ->]|[[_ ->]|[_ ->]]]]; reflexivity.
Qed.

Lemma getModeInstruction_base s base :
  logical_or (MODE_INSTRUCTIONS_get (mode s)) (VString default_instruction) = base ->
  (customInstruction s = [] -> getModeInstruction s = base)
  /\ (customInstruction s <> [] ->
      getModeInstruction s
      = VString (ToString base ++ js " " ++ customInstruction s)).
Proof.
  intros <-. unfold getModeInstruction.
  destruct (customInstruction s) as [|c cs]; simpl; split; congruence.
Qed.

(** The fallback is reached by every key that is neither a property of the
    catalogue nor one of [Object.prototype]. *)
Lemma getModeInstruction_fallback s :
  MODE_INSTRUCTIONS !! mode s = None ->
  Object_prototype !! mode s = None ->
  (customInstruction s = [] -> getModeInstruction s = VString default_instruction)
  /\ (customInstruction s <> [] ->
      getModeInstruction s
      = VString (default_instruction ++ js " " ++ customInstruction s)).
Proof.
  intros Hown Hproto. apply getModeInstruction_base.
  unfold MODE_INSTRUCTIONS_get. rewrite Hown, Hproto. reflexivity.
Qed.

(** C2: for each of the modes Email, Chat, Report and Notification,
    [getModeInstruction] returns the catalogue entry of the mode when
    [customInstruction] is empty, and the entry, one space and
    [customInstruction] when it is not. *)
Theorem getModeInstruction_enumerated s :
  In (mode s) enumerated_modes ->
  exists entry,
    MODE_INSTRUCTIONS !! mode s = Some entry
    /\ (customInstruction s = [] -> getModeInstruction s = VString entry)
    /\ (customInstruction s <> [] ->
        getModeInstruction s = VString (entry ++ [32] ++ customInstruction s)).
Proof.
  intros Hmode. apply MODE_INSTRUCTIONS_enumerated in Hmode as [entry Hentry].
  exists entry. split; [exact Hentry|].
  apply (getModeInstruction_base s (VString entry)).
  unfold MODE_INSTRUCTIONS_get, logical_or. rewrite Hentry.
  rewrite (catalogue_entry_truthy _ _ Hentry). reflexivity.
Qed.

Lemma getModeInstruction_enumerated_witness :
  In (mode Sample.chat_brief) enumerated_modes
  /\ exists entry,
       MODE_INSTRUCTIONS !! mode Sample.chat_brief = Some entry
       /\ (customInstruction Sample.chat_brief = [] ->
           getModeInstruction Sample.chat_brief = VString entry)
       /\ (customInstruction Sample.chat_brief <> [] ->
           getModeInstruction Sample.chat_brief
           = VString (entry ++ [32] ++ customInstruction Sample.chat_brief)).
Proof.
  split.
  - simpl. tauto.
  - apply (getModeInstruction_enumerated Sample.chat_brief). simpl. tauto.
Defined.

(** C3, at a mode outside the enumerated set: the key [toString] is found on
    [Object.prototype], so the instruction is that built-in function and
    not the generic string; with a custom instruction the text of the
    function is what gets the suffix. *)
Theorem getModeInstruction_inherited_key :
  ~ In (js "toString") enumerated_modes
  /\ getModeInstruction (handleModeChange (js "toString") initial_state)
     = VNative (js "toString")
  /\ getModeInstruction (handleModeChange (js "toString") initial_state)
     <> VString default_instruction
  /\ getModeInstruction
       (handleCustomInstructionChange (js "Be brief.")
          (handleModeChange (js "toString") initial_state))
     = VString (js "function toString() { [native code] } Be brief.")
  /\ getModeInstruction
       (handleCustomInstructionChange (js "Be brief.")
          (handleModeChange (js "toString") initial_state))
     <> VString (default_instruction ++ js " " ++ js "Be brief.").
Proof.
  split; [|split; [|split; [|split]]].
  - intros [H|[H|[H|[H|[]]]]]; discriminate H.
  - vm_compute. reflexivity.
  - vm_compute. discriminate.
  - vm_compute. reflexivity.
  - vm_compute. discriminate.
Qed.

(** ** The prompt *)

(** C7: the content built by [AI_PROMPT] from an input string and an
    instruction string contains both, unmodified, whatever their length and
    whatever characters they hold. *)
Theorem AI_PROMPT_embeds (I T : jstring) :
  occurs_in I (AI_PROMPT I (VString T))
  /\ occurs_in T (AI_PROMPT I (VString T))
  /\ includes (AI_PROMPT I (VString T)) I = true
  /\ includes (AI_PROMPT I (VString T)) T = true.
Proof.
  assert (HI : occurs_in I (AI_PROMPT I (VString T))).
  { unfold occurs_in, AI_PROMPT. eexists ([LF] ++ js "Raw Input Text: "), _.
    rewrite <- !app_assoc. reflexivity. }
  assert (HT : occurs_in T (AI_PROMPT I (VString T))).
  { unfold occurs_in, AI_PROMPT.
    eexists ([LF] ++ js "Raw Input Text: " ++ I ++ [LF] ++ [LF]
             ++ js "Instructions:" ++ [LF]), _.
    cbn [ToString]. rewrite <- !app_assoc. reflexivity. }
  repeat split; try assumption; apply includes_spec; assumption.
Qed.

(** ** Running tasks *)

Lemma run_bind {A B : Type} net (f : A -> task B) (t : task A) : forall s,
  run net (t ≫= f) s
  = match run net t s with
    | (s1, tr1, Normal a) =>
        let '(s2, tr2, r) := run net (f a) s1 in (s2, tr1 ++ tr2, r)
    | (s1, tr1, Throw e) => (s1, tr1, Throw e)
    end.
Proof.
  change (t ≫= f) with (task_bind f t).
  induction t as [[a|e]|a k IH|url init k IH|response k IH]; intros s;
    cbn [task_bind run].
  - destruct (run net (f a) s) as [[s2 tr2] r]. reflexivity.
  - reflexivity.
  - rewrite IH. destruct (run net k (apply_action a s)) as [[s1 tr1] [x|e]].
    + destruct (run net (f x) s1) as [[s2 tr2] r]. reflexivity.
    + reflexivity.
  - rewrite IH. destruct (run net (k (net url init)) s) as [[s1 tr1] [x|e]].
    + destruct (run net (f x) s1) as [[s2 tr2] r]. reflexivity.
    + reflexivity.
  - rewrite IH. destruct (run net (k (json_body response)) s) as [[s1 tr1] [x|e]].
    + destruct (run net (f x) s1) as [[s2 tr2] r]. reflexivity.
    + reflexivity.
Qed.

Lemma run_try_catch {A : Type} net (handler : thrown -> task A) (t : task A) :
  forall s,
  run net (try_catch t handler) s
  = match run net t s with
    | (s1, tr1, Normal a) => (s1, tr1, Normal a)
    | (s1, tr1, Throw e) =>
        let '(s2, tr2, r) := run net (handler e) s1 in (s2, tr1 ++ tr2, r)
    end.
Proof.
  induction t as [[a|e]|a k IH|url init k IH|response k IH]; intros s;
    cbn [try_catch run].
  - reflexivity.
  - destruct (run net (handler e) s) as [[s2 tr2] r]. reflexivity.
  - rewrite IH. destruct (run net k (apply_action a s)) as [[s1 tr1] [x|e]].
    + reflexivity.
    + destruct (run net (handler e) s1) as [[s2 tr2] r]. reflexivity.
  - rewrite IH. destruct (run net (k (net url init)) s) as [[s1 tr1] [x|e]].
    + reflexivity.
    + destruct (run net (handler e) s1) as [[s2 tr2] r]. reflexivity.
  - rewrite IH. destruct (run net (k (json_body response)) s) as [[s1 tr1] [x|e]].
    + reflexivity.
    + destruct (run net (handler e) s1) as [[s2 tr2] r]. reflexivity.
Qed.

Lemma run_try_finally {A : Type} net (finalizer : task unit) (t : task A) :
  forall s,
  run net (try_finally t finalizer) s
  = let '(s1, tr1, r1) := run net t s in
    let '(s2, tr2, r2) := run net finalizer s1 in
    (s2, tr1 ++ tr2, match r2 with Normal _ => r1 | Throw e => Throw e end).
Proof.
  induction t as [r|a k IH|url init k IH|response k IH]; intros s;
    cbn [try_finally run].
  - rewrite run_bind. destruct (run net finalizer s) as [[s2 tr2] [[]|e]];
      cbn [run app]; rewrite ?app_nil_r; reflexivity.
  - rewrite IH. destruct (run net k (apply_action a s)) as [[s1 tr1] r1].
    destruct (run net finalizer s1) as [[s2 tr2] r2]. reflexivity.
  - rewrite IH. destruct (run net (k (net url init)) s) as [[s1 tr1] r1].
    destruct (run net finalizer s1) as [[s2 tr2] r2]. reflexivity.
  - rewrite IH. destruct (run net (k (json_body response)) s) as [[s1 tr1] r1].
    destruct (run net finalizer s1) as [[s2 tr2] r2]. reflexivity.
Qed.

(** A run is the run up to the first [await] followed by the run of what
    was suspended there. *)
Lemma run_resumes {A : Type} net (t : task A) : forall s,
  run net t s
  = match run_to_await t s with
    | (tr, Completed s' r) => (s', tr, r)
    | (tr, WaitingForFetch s' url init k) =>
        let '(s2, tr2, r) := run net (AwaitFetch url init k) s' in (s2, tr ++ tr2, r)
    | (tr, WaitingForBody s' response k) =>
        let '(s2, tr2, r) := run net (AwaitJson response k) s' in (s2, tr ++ tr2, r)
    end.
Proof.
  induction t as [r|a k IH|url init k IH|response k IH]; intros s.
  - reflexivity.
  - cbn [run run_to_await]. rewrite IH.
    destruct (run_to_await k (apply_action a s))
      as [tr [s' r|s' url init k'|s' response k']]; cbn [run].
    + reflexivity.
    + destruct (run net (k' (net url init)) s') as [[s2 tr2] r]. reflexivity.
    + destruct (run net (k' (json_body response)) s') as [[s2 tr2] r]. reflexivity.
  - cbn [run_to_await run].
    destruct (run net (k (net url init)) s) as [[s2 tr2] r]. reflexivity.
  - cbn [run_to_await run].
    destruct (run net (k (json_body response)) s) as [[s2 tr2] r]. reflexivity.
Qed.

(** ** Submissions *)

Section Submission.

Variable openAiApiKey : value.
Variable Number_toString : Q -> jstring.

Local Abbreviation handler := (handleSubmit openAiApiKey Number_toString).
Local Abbreviation init_of := (request_init openAiApiKey Number_toString).

Lemma handleSubmit_to_await_blank s :
  trim (inputMessage s) = [] ->
  run_to_await (handler s) s = ([Performed PreventDefault], Completed s (Normal tt)).
Proof.
  intros Hblank. unfold handleSubmit. rewrite Hblank. reflexivity.
Qed.

Lemma submit_blank net s :
  trim (inputMessage s) = [] ->
  submit openAiApiKey Number_toString net s
  = (s, [Performed PreventDefault], Normal tt).
Proof.
  intros Hblank. unfold submit. rewrite run_resumes.
  rewrite (handleSubmit_to_await_blank s Hblank). reflexivity.
Qed.

Lemma submit_nonblank net s :
  trim (inputMessage s) <> [] ->
  submit openAiApiKey Number_toString net s
  = (settle s (net endpoint (init_of s)),
     [Performed PreventDefault; Performed (SetLoading true);
      Performed (SetOutputMessage []); Fetched endpoint (init_of s)]
     ++ aftermath (net endpoint (init_of s)),
     Normal tt).
Proof.
  intros Hinput. unfold submit, handleSubmit.
  destruct (trim (inputMessage s)) as [|c cs] eqn:Htrim; [contradiction|].
  remember (init_of s) as init eqn:Hinit. clear Hinit.
  unfold settle, aftermath, reply_text.
  cbn -[js read_content endpoint].
  destruct (net endpoint init) as [response|e]; cbn -[js read_content endpoint].
  - destruct (ok response); cbn -[js read_content endpoint].
    + destruct (json_body response) as [data|e]; cbn -[js read_content endpoint].
      * destruct (read_content data) as [text|e]; reflexivity.
      * reflexivity.
    + reflexivity.
  - reflexivity.
Qed.

End Submission.

(** ** Reading the reply *)

Lemma read_content_unfold data :
  read_content data
  = match GetV (Some data) K_choices with
    | Throw e => Throw e
    | Normal choices =>
        match GetV choices K_0 with
        | Throw e => Throw e
        | Normal first =>
            match GetV first K_message with
            | Throw e => Throw e
            | Normal message =>
                match GetV message K_content with
                | Throw e => Throw e
                | Normal c => call_trim c
                end
            end
        end
    end.
Proof. reflexivity. Qed.

Lemma read_content_expected data text :
  expected_shape data text -> read_content data = Normal (trim text).
Proof.
  intros [props choices first_props message_props content Hchoices Hzero Hmessage Hcontent].
  rewrite read_content_unfold. cbn [GetV key_name]. rewrite Hchoices.
  inversion Hzero as [first rest Hlist Hfirst | props0 first Hkey Hobj Hfirst]; subst.
  - cbn [GetV key_name head]. rewrite Hmessage.
    cbn [GetV key_name]. rewrite Hcontent. reflexivity.
  - cbn [GetV key_name]. rewrite Hkey.
    cbn [GetV key_name]. rewrite Hmessage.
    cbn [GetV key_name]. rewrite Hcontent. reflexivity.
Qed.

Lemma GetV_message_object first message :
  GetV first K_message = Normal (Some message) ->
  exists first_props,
    first = Some (JObject first_props) /\ first_props !! js "message" = Some message.
Proof.
  destruct first as [[| b | n | s | elems | props]|]; cbn [GetV key_name];
    try discriminate.
  intros H. injection H as H. eauto.
Qed.

Lemma GetV_content_string message text :
  GetV message K_content = Normal (Some (JString text)) ->
  exists message_props,
    message = Some (JObject message_props)
    /\ message_props !! js "content" = Some (JString text).
Proof.
  destruct message as [[| b | n | s | elems | props]|]; cbn [GetV key_name];
    try discriminate.
  intros H. injection H as H. eauto.
Qed.

Lemma GetV_zero_object choices first_props :
  GetV (Some choices) K_0 = Normal (Some (JObject first_props)) ->
  element_zero choices (JObject first_props).
Proof.
  destruct choices as [| b | n | s | elems | props]; cbn [GetV key_name];
    try discriminate.
  - destruct s; discriminate.
  - destruct elems as [|first rest]; cbn [head]; [discriminate|].
    intros H. injection H as ->. constructor.
  - intros H. injection H as H. constructor. exact H.
Qed.

Lemma call_trim_Normal c shown :
  call_trim c = Normal shown -> exists text, c = Some (JString text) /\ shown = trim text.
Proof.
  destruct c as [[| b | n | s | elems | props]|]; cbn [call_trim]; try discriminate.
  intros H. injection H as <-. eauto.
Qed.

Lemma read_content_Normal data shown :
  read_content data = Normal shown ->
  exists text, expected_shape data text /\ shown = trim text.
Proof.
  rewrite read_content_unfold.
  destruct (GetV (Some data) K_choices) as [choices|e] eqn:Hchoices; [|discriminate].
  destruct (GetV choices K_0) as [first|e] eqn:Hzero; [|discriminate].
  destruct (GetV first K_message) as [message|e] eqn:Hmessage; [|discriminate].
  destruct (GetV message K_content) as [c|e] eqn:Hcontent; [|discriminate].
  intros Hcall. apply call_trim_Normal in Hcall as [text [-> ->]].
  apply GetV_content_string in Hcontent as [message_props [-> Hcontent]].
  apply GetV_message_object in Hmessage as [first_props [-> Hmessage]].
  destruct choices as [choices|]; [|discriminate].
  apply GetV_zero_object in Hzero.
  destruct data as [| b | n | s | elems | props]; cbn [GetV key_name] in Hchoices;
    try discriminate.
  - injection Hchoices as Hchoices. exists text. split; [|reflexivity].
    econstructor; eassumption.
Qed.

(** What is thrown in the [try] block never shows: the failure message does. *)
Lemma settle_failure s r e :
  reply_text r = Throw e ->
  outputMessage (settle s r) = failure_message /\ loading (settle s r) = false.
Proof. intros H. unfold settle. rewrite H. split; reflexivity. Qed.

Lemma settle_success s r text :
  reply_text r = Normal text ->
  outputMessage (settle s r) = text /\ loading (settle s r) = false.
Proof. intros H. unfold settle. rewrite H. split; reflexivity. Qed.

Lemma ok_status response :
  ok response = true <-> 200 <= status response <= 299.
Proof. unfold ok. rewrite andb_true_iff, !Z.leb_le. tauto. Qed.

(** The [finally] block resets [loading] on every way out of its body. *)
Lemma finally_resets_loading {A : Type} net (t : task A) s :
  loading (final_state (run net (try_finally t (perform (SetLoading false))) s))
  = false.
Proof.
  rewrite run_try_finally. destruct (run net t s) as [[s1 tr1] r1]. reflexivity.
Qed.

Lemma aftermath_no_network_call r : network_calls (aftermath r) = [].
Proof.
  unfold aftermath.
  destruct r as [response|e]; cbn [reply_text].
  - destruct (ok response); [destruct (json_body response) as [data|e];
      [destruct (read_content data)|]|]; reflexivity.
  - reflexivity.
Qed.

Lemma aftermath_not_fetched r url init : ~ In (Fetched url init) (aftermath r).
Proof.
  intros Hin. assert (Hcalls : In (Fetched url init) (network_calls (aftermath r))).
  { unfold network_calls. apply list_elem_of_In, list_elem_of_filter.
    split; [reflexivity | apply list_elem_of_In; exact Hin]. }
  rewrite aftermath_no_network_call in Hcalls. exact Hcalls.
Qed.

Lemma fetched_in_submit openAiApiKey Number_toString net s url init :
  In (Fetched url init) (trace (submit openAiApiKey Number_toString net s)) ->
  trim (inputMessage s) <> []
  /\ url = endpoint
  /\ init = request_init openAiApiKey Number_toString s.
Proof.
  destruct (trim (inputMessage s)) as [|c cs] eqn:Htrim.
  - rewrite (submit_blank _ _ _ _ Htrim). cbn. intros [H|[]]. discriminate H.
  - assert (Hne : trim (inputMessage s) <> []) by (rewrite Htrim; discriminate).
    rewrite (submit_nonblank _ _ _ _ Hne). unfold trace. cbn [fst snd].
    intros Hin. apply in_app_or in Hin as [Hin|Hin].
    + destruct Hin as [H|[H|[H|[H|[]]]]]; try discriminate H.
      injection H as <- <-. split; [discriminate|]. split; reflexivity.
    + exfalso. exact (aftermath_not_fetched _ _ _ Hin).
Qed.

(** Inputs made of white space only, such as the empty string, one space,
    or a line feed and a tab, are rejected. *)
Lemma submit_white_input openAiApiKey Number_toString net s :
  forallb is_white_space (inputMessage s) = true ->
  submit openAiApiKey Number_toString net s
  = (s, [Performed PreventDefault], Normal tt).
Proof. intros Hwhite. apply submit_blank, trim_all_white, Hwhite. Qed.

(** Once past the guard, a submission ends with [loading] reset, makes
    exactly one network call and returns normally, whatever the network
    does. *)
Lemma submit_settles openAiApiKey Number_toString net s :
  trim (inputMessage s) <> [] ->
  loading (final_state (submit openAiApiKey Number_toString net s)) = false
  /\ network_calls (trace (submit openAiApiKey Number_toString net s))
     = [Fetched endpoint (request_init openAiApiKey Number_toString s)]
  /\ (submit openAiApiKey Number_toString net s).2 = Normal tt.
Proof.
  intros Hinput. rewrite (submit_nonblank _ _ _ _ Hinput).
  split; [reflexivity|]. split; [|reflexivity].
  unfold trace, network_calls. cbn [fst snd].
  rewrite filter_app. fold (network_calls (aftermath
    (net endpoint (request_init openAiApiKey Number_toString s)))).
  rewrite aftermath_no_network_call. reflexivity.
Qed.

(** ** The claims about a submission *)

(** C1: when the trimmed input is empty, a submission makes no network call
    and leaves [outputMessage] as it was. *)
Theorem submit_blank_input_rejected openAiApiKey Number_toString net s :
  trim (inputMessage s) = [] ->
  network_calls (trace (submit openAiApiKey Number_toString net s)) = []
  /\ outputMessage (final_state (submit openAiApiKey Number_toString net s))
     = outputMessage s.
Proof.
  intros Hblank. rewrite (submit_blank _ _ _ _ Hblank). split; reflexivity.
Qed.

Lemma submit_blank_input_rejected_witness :
  trim (inputMessage Sample.blank) = []
  /\ network_calls
       (trace (submit Sample.key decimal_text Sample.success Sample.blank)) = []
  /\ outputMessage
       (final_state (submit Sample.key decimal_text Sample.success Sample.blank))
     = outputMessage Sample.blank.
Proof.
  split.
  - vm_compute. reflexivity.
  - apply (submit_blank_input_rejected Sample.key decimal_text Sample.success
             Sample.blank).
    vm_compute. reflexivity.
Defined.

(** C4: when the network answers with a 2xx status and a body of the
    expected shape, [outputMessage] becomes the trimmed content and
    [loading] becomes false. *)
Theorem submit_success openAiApiKey Number_toString net s response data text :
  trim (inputMessage s) <> [] ->
  net endpoint (request_init openAiApiKey Number_toString s) = Normal response ->
  200 <= status response <= 299 ->
  json_body response = Normal data ->
  expected_shape data text ->
  outputMessage (final_state (submit openAiApiKey Number_toString net s))
  = trim text
  /\ loading (final_state (submit openAiApiKey Number_toString net s)) = false.
Proof.
  intros Hinput Hnet Hstatus Hbody Hshape.
  rewrite (submit_nonblank _ _ _ _ Hinput). unfold final_state. cbn [fst].
  apply settle_success. rewrite Hnet. cbn [reply_text].
  apply ok_status in Hstatus. rewrite Hstatus, Hbody.
  apply read_content_expected. exact Hshape.
Qed.

Lemma submit_success_witness :
  trim (inputMessage Sample.draft) <> []
  /\ Sample.success endpoint (request_init Sample.key decimal_text Sample.draft)
     = Normal {| status := 200; json_body := Normal Sample.reply |}
  /\ 200 <= 200 <= 299
  /\ expected_shape Sample.reply (js " Hello, client. ")
  /\ outputMessage
       (final_state (submit Sample.key decimal_text Sample.success Sample.draft))
     = js "Hello, client."
  /\ loading
       (final_state (submit Sample.key decimal_text Sample.success Sample.draft))
     = false.
Proof.
  assert (Hshape : expected_shape Sample.reply (js " Hello, client. ")).
  { unfold Sample.reply. eapply shape.
    - vm_compute. reflexivity.
    - apply zero_of_array.
    - vm_compute. reflexivity.
    - vm_compute. reflexivity. }
  split; [vm_compute; discriminate|].
  split; [reflexivity|].
  split; [lia|].
  split; [exact Hshape|].
  apply (submit_success Sample.key decimal_text Sample.success Sample.draft
           {| status := 200; json_body := Normal Sample.reply |}
           Sample.reply (js " Hello, client. ")).
  - vm_compute. discriminate.
  - reflexivity.
  - simpl. lia.
  - reflexivity.
  - exact Hshape.
Defined.

Lemma failed_reply_text r : failed r -> exists e, reply_text r = Throw e.
Proof.
  intros [e | response Hstatus | response e Hbody | response data Hbody Hshape];
    cbn [reply_text].
  - eauto.
  - destruct (ok response) eqn:Hok; [|eauto].
    apply ok_status in Hok. contradiction.
  - destruct (ok response); [|eauto]. rewrite Hbody. eauto.
  - destruct (ok response); [|eauto]. rewrite Hbody.
    destruct (read_content data) as [shown|e] eqn:Hread; [|eauto].
    apply read_content_Normal in Hread as [text [Hexpected _]].
    destruct (Hshape text Hexpected).
Qed.

(** C5: when a submission fails (for any of the reasons of [failed]),
    [outputMessage] becomes the fixed failure message and [loading] becomes
    false. *)
Theorem submit_failure openAiApiKey Number_toString net s :
  trim (inputMessage s) <> [] ->
  failed (net endpoint (request_init openAiApiKey Number_toString s)) ->
  outputMessage (final_state (submit openAiApiKey Number_toString net s))
  = js "Sorry, something went wrong. Please try again."
  /\ loading (final_state (submit openAiApiKey Number_toString net s)) = false.
Proof.
  intros Hinput Hfailed.
  rewrite (submit_nonblank _ _ _ _ Hinput). unfold final_state. cbn [fst].
  apply failed_reply_text in Hfailed as [e He].
  exact (settle_failure _ _ _ He).
Qed.

Lemma submit_failure_witness :
  trim (inputMessage Sample.draft) <> []
  /\ failed (Sample.server_error endpoint
               (request_init Sample.key decimal_text Sample.draft))
  /\ outputMessage
       (final_state (submit Sample.key decimal_text Sample.server_error Sample.draft))
     = js "Sorry, something went wrong. Please try again."
  /\ loading
       (final_state (submit Sample.key decimal_text Sample.server_error Sample.draft))
     = false.
Proof.
  assert (Hfailed : failed (Sample.server_error endpoint
                              (request_init Sample.key decimal_text Sample.draft))).
  { apply bad_status. simpl. lia. }
  split; [vm_compute; discriminate|].
  split; [exact Hfailed|].
  apply (submit_failure Sample.key decimal_text Sample.server_error Sample.draft).
  - vm_compute. discriminate.
  - exact Hfailed.
Defined.

(** C6: a submission that passes the guard has set [loading] to true and
    cleared [outputMessage] when it suspends at the network call, whatever
    was displayed before; in every run these two updates precede the call. *)
Theorem submit_clears_before_await openAiApiKey Number_toString s :
  trim (inputMessage s) <> [] ->
  exists s1 k,
    run_to_await (handleSubmit openAiApiKey Number_toString s) s
    = ([Performed PreventDefault; Performed (SetLoading true);
        Performed (SetOutputMessage [])],
       WaitingForFetch s1 endpoint
         (request_init openAiApiKey Number_toString s) k)
    /\ loading s1 = true
    /\ outputMessage s1 = []
    /\ forall net, exists rest,
         trace (submit openAiApiKey Number_toString net s)
         = [Performed PreventDefault; Performed (SetLoading true);
            Performed (SetOutputMessage []);
            Fetched endpoint (request_init openAiApiKey Number_toString s)]
           ++ rest.
Proof.
  intros Hinput.
  assert (Htrace : forall net, exists rest,
            trace (submit openAiApiKey Number_toString net s)
            = [Performed PreventDefault; Performed (SetLoading true);
               Performed (SetOutputMessage []);
               Fetched endpoint (request_init openAiApiKey Number_toString s)]
              ++ rest).
  { intros net.
    exists (aftermath (net endpoint (request_init openAiApiKey Number_toString s))).
    rewrite (submit_nonblank _ _ _ _ Hinput). reflexivity. }
  unfold handleSubmit.
  destruct (trim (inputMessage s)) as [|c cs] eqn:Htrim; [contradiction|].
  cbn -[js endpoint request_init read_content submit].
  eexists _, _. split; [reflexivity|]. split; [reflexivity|]. split; [reflexivity|].
  exact Htrace.
Qed.

Lemma submit_clears_before_await_witness :
  trim (inputMessage Sample.answered) <> []
  /\ exists s1 k,
       run_to_await (handleSubmit Sample.key decimal_text Sample.answered)
         Sample.answered
       = ([Performed PreventDefault; Performed (SetLoading true);
           Performed (SetOutputMessage [])],
          WaitingForFetch s1 endpoint
            (request_init Sample.key decimal_text Sample.answered) k)
       /\ loading s1 = true
       /\ outputMessage s1 = []
       /\ forall net, exists rest,
            trace (submit Sample.key decimal_text net Sample.answered)
            = [Performed PreventDefault; Performed (SetLoading true);
               Performed (SetOutputMessage []);
               Fetched endpoint
                 (request_init Sample.key decimal_text Sample.answered)]
              ++ rest.
Proof.
  split.
  - vm_compute. discriminate.
  - apply (submit_clears_before_await Sample.key decimal_text Sample.answered).
    vm_compute. discriminate.
Defined.

(** C8: every request a submission makes carries the JSON text of an object
    with model gpt-4, the two messages (the system directive, then the
    user prompt), max_tokens 1000 and temperature 0.5. *)
Theorem request_body_shape openAiApiKey Number_toString net s url init :
  In (Fetched url init) (trace (submit openAiApiKey Number_toString net s)) ->
  body init
  = JSON_stringify Number_toString
      {| model := js "gpt-4";
         messages :=
           [ {| role := js "system"; content := SYSTEM_MESSAGE |};
             {| role := js "user";
                content := AI_PROMPT (inputMessage s) (getModeInstruction s) |} ];
         max_tokens := 1000;
         temperature := 0.5 |}
  /\ body init
     = json_text "{'model':'gpt-4','messages':[{'role':'system','content':"
       ++ QuoteJSONString SYSTEM_MESSAGE
       ++ json_text "},{'role':'user','content':"
       ++ QuoteJSONString (AI_PROMPT (inputMessage s) (getModeInstruction s))
       ++ json_text "}],'max_tokens':" ++ Number_toString 1000%Q
       ++ json_text ",'temperature':" ++ Number_toString 0.5%Q ++ json_text "}".
Proof.
  intros Hin. apply fetched_in_submit in Hin as [_ [_ ->]]. split.
  - reflexivity.
  - cbn [request_init body]. unfold JSON_stringify, stringify_message.
    cbn [model messages max_tokens temperature role content map comma_separated].
    generalize (QuoteJSONString SYSTEM_MESSAGE)
      (QuoteJSONString (AI_PROMPT (inputMessage s) (getModeInstruction s)))
      (Number_toString 1000%Q) (Number_toString 0.5%Q).
    intros system user tokens temp. rewrite <- !app_assoc.
    vm_compute. reflexivity.
Qed.

Lemma request_body_shape_witness :
  In (Fetched endpoint (request_init Sample.key decimal_text Sample.draft))
     (trace (submit Sample.key decimal_text Sample.success Sample.draft))
  /\ body (request_init Sample.key decimal_text Sample.draft)
     = JSON_stringify decimal_text
         {| model := js "gpt-4";
            messages :=
              [ {| role := js "system"; content := SYSTEM_MESSAGE |};
                {| role := js "user";
                   content := AI_PROMPT (inputMessage Sample.draft)
                                (getModeInstruction Sample.draft) |} ];
            max_tokens := 1000;
            temperature := 0.5 |}
  /\ body (request_init Sample.key decimal_text Sample.draft)
     = json_text "{'model':'gpt-4','messages':[{'role':'system','content':"
       ++ QuoteJSONString SYSTEM_MESSAGE
       ++ json_text "},{'role':'user','content':"
       ++ QuoteJSONString (AI_PROMPT (inputMessage Sample.draft)
                             (getModeInstruction Sample.draft))
       ++ json_text "}],'max_tokens':" ++ decimal_text 1000
       ++ json_text ",'temperature':" ++ decimal_text 0.5 ++ json_text "}".
Proof.
  assert (Hin : In (Fetched endpoint (request_init Sample.key decimal_text Sample.draft))
                  (trace (submit Sample.key decimal_text Sample.success Sample.draft))).
  { vm_compute. right. right. right. left. reflexivity. }
  split; [exact Hin|].
  exact (request_body_shape Sample.key decimal_text Sample.success Sample.draft
           endpoint (request_init Sample.key decimal_text Sample.draft) Hin).
Defined.

(** C9, as the handler behaves: when the trimmed input is empty, the form
    state is unchanged (no setter is called, [loading] is not set), no
    network call is made and nothing is logged; the one effect is the call of
    [event.preventDefault()], and the handler returns normally. *)
Theorem submit_blank_input_frame openAiApiKey Number_toString net s :
  trim (inputMessage s) = [] ->
  submit openAiApiKey Number_toString net s
  = (s, [Performed PreventDefault], Normal tt).
Proof. apply submit_blank. Qed.

Lemma submit_blank_input_frame_witness :
  trim (inputMessage Sample.blank) = []
  /\ submit Sample.key decimal_text Sample.success Sample.blank
     = (Sample.blank, [Performed PreventDefault], Normal tt).
Proof.
  split.
  - vm_compute. reflexivity.
  - apply (submit_blank_input_frame Sample.key decimal_text Sample.success
             Sample.blank).
    vm_compute. reflexivity.
Defined.

(** C9 as stated fails: a rejected submission is not free of effects, since
    [event.preventDefault()] has been called before the guard. *)
Lemma blank_submission_prevents_default :
  ~ (forall openAiApiKey Number_toString net s,
       trim (inputMessage s) = [] ->
       final_state (submit openAiApiKey Number_toString net s) = s
       /\ trace (submit openAiApiKey Number_toString net s) = []).
Proof.
  intros Hclaim.
  destruct (Hclaim Sample.key decimal_text Sample.success Sample.blank) as [_ Htrace].
  - vm_compute. reflexivity.
  - vm_compute in Htrace. discriminate Htrace.
Qed.

(** C10: the request body is determined by [inputMessage], [mode] and
    [customInstruction]: two states that agree on them send the same body,
    whatever their [outputMessage] and [loading] and whatever the network
    answers. *)
Theorem request_body_determined openAiApiKey Number_toString s1 s2 :
  inputMessage s1 = inputMessage s2 ->
  mode s1 = mode s2 ->
  customInstruction s1 = customInstruction s2 ->
  body (request_init openAiApiKey Number_toString s1)
  = body (request_init openAiApiKey Number_toString s2)
  /\ forall net1 net2 url1 init1 url2 init2,
       In (Fetched url1 init1) (trace (submit openAiApiKey Number_toString net1 s1)) ->
       In (Fetched url2 init2) (trace (submit openAiApiKey Number_toString net2 s2)) ->
       body init1 = body init2.
Proof.
  intros Hinput Hmode Hcustom.
  assert (Hbody : body (request_init openAiApiKey Number_toString s1)
                  = body (request_init openAiApiKey Number_toString s2)).
  { cbn [request_init body]. unfold getModeInstruction.
    rewrite Hinput, Hmode, Hcustom. reflexivity. }
  split; [exact Hbody|].
  intros net1 net2 url1 init1 url2 init2 H1 H2.
  apply fetched_in_submit in H1 as [_ [_ ->]].
  apply fetched_in_submit in H2 as [_ [_ ->]].
  exact Hbody.
Qed.

Lemma request_body_determined_witness :
  inputMessage Sample.draft = inputMessage Sample.answered
  /\ mode Sample.draft = mode Sample.answered
  /\ customInstruction Sample.draft = customInstruction Sample.answered
  /\ body (request_init Sample.key decimal_text Sample.draft)
     = body (request_init Sample.key decimal_text Sample.answered)
  /\ forall net1 net2 url1 init1 url2 init2,
       In (Fetched url1 init1)
          (trace (submit Sample.key decimal_text net1 Sample.draft)) ->
       In (Fetched url2 init2)
          (trace (submit Sample.key decimal_text net2 Sample.answered)) ->
       body init1 = body init2.
Proof.
  split; [reflexivity|]. split; [reflexivity|]. split; [reflexivity|].
  apply (request_body_determined Sample.key decimal_text Sample.draft
           Sample.answered); reflexivity.
Defined.

(** * Further properties of the component *)

(** ** What [trim] keeps *)

Lemma trimStart_empty s : trimStart s = [] -> forallb is_white_space s = true.
Proof.
  induction s as [|c s IH]; simpl; [reflexivity|].
  destruct (is_white_space c); [exact IH | discriminate].
Qed.

Lemma trimStart_head s c rest :
  trimStart s = c :: rest -> is_white_space c = false.
Proof.
  induction s as [|d s IH]; simpl; [discriminate|].
  destruct (is_white_space d) eqn:Hd; [exact IH|].
  intros H. injection H as <- _. exact Hd.
Qed.

Lemma trimStart_split s :
  exists white, s = white ++ trimStart s /\ forallb is_white_space white = true.
Proof.
  induction s as [|c s [white [Hs Hwhite]]]; simpl.
  - exists []. split; reflexivity.
  - destruct (is_white_space c) eqn:Hc.
    + exists (c :: white). simpl. rewrite Hc, Hwhite. split; [|reflexivity].
      f_equal. exact Hs.
    + exists []. split; reflexivity.
Qed.

Lemma forallb_rev (f : Z -> bool) s : forallb f (rev s) = forallb f s.
Proof.
  induction s as [|c s IH]; simpl; [reflexivity|].
  rewrite forallb_app, IH. simpl. rewrite andb_true_r. apply andb_comm.
Qed.

Lemma trimEnd_split s :
  exists white, s = trimEnd s ++ white /\ forallb is_white_space white = true.
Proof.
  unfold trimEnd. destruct (trimStart_split (rev s)) as [white [Hs Hwhite]].
  exists (rev white). split.
  - rewrite <- rev_app_distr, <- Hs, rev_involutive. reflexivity.
  - rewrite forallb_rev. exact Hwhite.
Qed.

Lemma trimEnd_last s front c :
  trimEnd s = front ++ [c] -> is_white_space c = false.
Proof.
  unfold trimEnd. intros H. apply (f_equal (@rev Z)) in H.
  rewrite rev_involutive, rev_app_distr in H. simpl in H.
  exact (trimStart_head _ _ _ H).
Qed.

Lemma trimEnd_head s c rest :
  trimEnd s = c :: rest -> exists rest', s = c :: rest'.
Proof.
  intros H. destruct (trimEnd_split s) as [white [Hs _]].
  rewrite H in Hs. simpl in Hs. eauto.
Qed.

(** The guard of [handleSubmit] lets an input through exactly when it holds
    a code unit that is not white space. *)
Lemma trim_empty_iff s : trim s = [] <-> forallb is_white_space s = true.
Proof.
  split; [|apply trim_all_white].
  unfold trim. intros H.
  destruct (trimStart s) as [|c rest] eqn:Hstart.
  - exact (trimStart_empty s Hstart).
  - exfalso. pose proof (trimStart_head _ _ _ Hstart) as Hc.
    destruct (trimEnd_split (c :: rest)) as [white [Hsplit Hwhite]].
    rewrite H in Hsplit. simpl in Hsplit. subst white.
    simpl in Hwhite. rewrite Hc in Hwhite. discriminate.
Qed.

Lemma trim_head s c rest : trim s = c :: rest -> is_white_space c = false.
Proof.
  unfold trim. intros H. apply trimEnd_head in H as [rest' H].
  exact (trimStart_head _ _ _ H).
Qed.

Lemma trim_last s front c : trim s = front ++ [c] -> is_white_space c = false.
Proof. unfold trim. apply trimEnd_last. Qed.

Lemma trim_occurs s : occurs_in (trim s) s.
Proof.
  unfold occurs_in, trim.
  destruct (trimStart_split s) as [before [Hs _]].
  destruct (trimEnd_split (trimStart s)) as [after [Ht _]].
  exists before, after. rewrite <- Ht. exact Hs.
Qed.

(** ** The outcome of any submission *)

Lemma submit_cases openAiApiKey Number_toString net s :
  (trim (inputMessage s) = []
   /\ forallb is_white_space (inputMessage s) = true
   /\ submit openAiApiKey Number_toString net s
      = (s, [Performed PreventDefault], Normal tt))
  \/ (trim (inputMessage s) <> []
      /\ forallb is_white_space (inputMessage s) = false
      /\ submit openAiApiKey Number_toString net s
         = (settle s (net endpoint (request_init openAiApiKey Number_toString s)),
            [Performed PreventDefault; Performed (SetLoading true);
             Performed (SetOutputMessage []);
             Fetched endpoint (request_init openAiApiKey Number_toString s)]
            ++ aftermath (net endpoint (request_init openAiApiKey Number_toString s)),
            Normal tt)).
Proof.
  destruct (forallb is_white_space (inputMessage s)) eqn:Hwhite.
  - left. pose proof (trim_all_white _ Hwhite) as Htrim.
    split; [exact Htrim|]. split; [reflexivity|]. exact (submit_blank _ _ _ _ Htrim).
  - right. assert (Htrim : trim (inputMessage s) <> []).
    { intros H. apply trim_empty_iff in H. congruence. }
    split; [exact Htrim|]. split; [reflexivity|]. exact (submit_nonblank _ _ _ _ Htrim).
Qed.

(** X1: a submission makes no network call when the input holds white space
    only, and exactly one, to the endpoint with the request built from the
    state, when the input holds anything else. *)
Theorem submit_network_calls openAiApiKey Number_toString net s :
  network_calls (trace (submit openAiApiKey Number_toString net s))
  = if forallb is_white_space (inputMessage s) then []
    else [Fetched endpoint (request_init openAiApiKey Number_toString s)].
Proof.
  destruct (submit_cases openAiApiKey Number_toString net s)
    as [[_ [-> ->]]|[_ [-> ->]]].
  - reflexivity.
  - unfold trace, network_calls. cbn [fst snd]. rewrite filter_app.
    fold (network_calls (aftermath
      (net endpoint (request_init openAiApiKey Number_toString s)))).
    rewrite aftermath_no_network_call. reflexivity.
Qed.

(** X2: no submission, whatever the network answers, changes [inputMessage],
    [mode] or [customInstruction]. *)
Theorem submit_keeps_form_fields openAiApiKey Number_toString net s :
  inputMessage (final_state (submit openAiApiKey Number_toString net s))
  = inputMessage s
  /\ mode (final_state (submit openAiApiKey Number_toString net s)) = mode s
  /\ customInstruction (final_state (submit openAiApiKey Number_toString net s))
     = customInstruction s.
Proof.
  destruct (submit_cases openAiApiKey Number_toString net s)
    as [[_ [_ ->]]|[_ [_ ->]]]; repeat split.
Qed.

(** X3: the handler never rejects: every submission returns normally,
    whatever the network answers; [loading] is false at the end of every
    submission that passed the guard and untouched otherwise. *)
Theorem submit_returns_normally openAiApiKey Number_toString net s :
  (submit openAiApiKey Number_toString net s).2 = Normal tt
  /\ loading (final_state (submit openAiApiKey Number_toString net s))
     = if forallb is_white_space (inputMessage s) then loading s else false.
Proof.
  destruct (submit_cases openAiApiKey Number_toString net s)
    as [[_ [-> ->]]|[_ [-> ->]]]; split; reflexivity.
Qed.

(** ** The order of events *)

Lemma GetV_throws v k e : GetV v k = Throw e -> e = TypeError.
Proof.
  destruct v as [[| b | n | s | elems | props]|]; cbn [GetV];
    try (intros H; injection H as <-; reflexivity); try discriminate.
  - destruct k, s; discriminate.
  - destruct k; discriminate.
Qed.

Lemma call_trim_throws c e : call_trim c = Throw e -> e = TypeError.
Proof.
  destruct c as [[| b | n | s | elems | props]|]; cbn [call_trim];
    try (intros H; injection H as <-; reflexivity); discriminate.
Qed.

(** Reading the content of a parsed body throws nothing but a [TypeError]. *)
Lemma read_content_throws data e : read_content data = Throw e -> e = TypeError.
Proof.
  rewrite read_content_unfold.
  destruct (GetV (Some data) K_choices) as [choices|e1] eqn:H1;
    [|intros H; injection H as <-; exact (GetV_throws _ _ _ H1)].
  destruct (GetV choices K_0) as [first|e2] eqn:H2;
    [|intros H; injection H as <-; exact (GetV_throws _ _ _ H2)].
  destruct (GetV first K_message) as [message|e3] eqn:H3;
    [|intros H; injection H as <-; exact (GetV_throws _ _ _ H3)].
  destruct (GetV message K_content) as [c|e4] eqn:H4;
    [|intros H; injection H as <-; exact (GetV_throws _ _ _ H4)].
  apply call_trim_throws.
Qed.

Lemma read_content_unexpected data :
  (forall text, ~ expected_shape data text) -> read_content data = Throw TypeError.
Proof.
  intros Hshape. destruct (read_content data) as [shown|e] eqn:Hread.
  - apply read_content_Normal in Hread as [text [Hexpected _]].
    destruct (Hshape text Hexpected).
  - apply read_content_throws in Hread. rewrite Hread. reflexivity.
Qed.

(** X4: on a 2xx response with a body of the expected shape, the handler
    reads the body once, sets the trimmed content and then resets
    [loading]; nothing is logged. *)
Theorem submit_success_trace openAiApiKey Number_toString net s response data text :
  trim (inputMessage s) <> [] ->
  net endpoint (request_init openAiApiKey Number_toString s) = Normal response ->
  200 <= status response <= 299 ->
  json_body response = Normal data ->
  expected_shape data text ->
  trace (submit openAiApiKey Number_toString net s)
  = [Performed PreventDefault; Performed (SetLoading true);
     Performed (SetOutputMessage []);
     Fetched endpoint (request_init openAiApiKey Number_toString s);
     ReadBody response;
     Performed (SetOutputMessage (trim text));
     Performed (SetLoading false)].
Proof.
  intros Hinput Hnet Hstatus Hbody Hshape.
  rewrite (submit_nonblank _ _ _ _ Hinput). unfold trace, aftermath. cbn [fst snd].
  rewrite Hnet. cbn [reply_text]. apply ok_status in Hstatus.
  rewrite Hstatus, Hbody, (read_content_expected _ _ Hshape). reflexivity.
Qed.

Lemma submit_success_trace_witness :
  trim (inputMessage Sample.draft) <> []
  /\ 200 <= 200 <= 299
  /\ expected_shape Sample.reply (js " Hello, client. ")
  /\ trace (submit Sample.key decimal_text Sample.success Sample.draft)
     = [Performed PreventDefault; Performed (SetLoading true);
        Performed (SetOutputMessage []);
        Fetched endpoint (request_init Sample.key decimal_text Sample.draft);
        ReadBody {| status := 200; json_body := Normal Sample.reply |};
        Performed (SetOutputMessage (trim (js " Hello, client. ")));
        Performed (SetLoading false)].
Proof.
  assert (Hshape : expected_shape Sample.reply (js " Hello, client. ")).
  { unfold Sample.reply. eapply shape.
    - vm_compute. reflexivity.
    - apply zero_of_array.
    - vm_compute. reflexivity.
    - vm_compute. reflexivity. }
  split; [vm_compute; discriminate|]. split; [lia|]. split; [exact Hshape|].
  apply (submit_success_trace Sample.key decimal_text Sample.success Sample.draft
           {| status := 200; json_body := Normal Sample.reply |}
           Sample.reply (js " Hello, client. ")).
  - vm_compute. discriminate.
  - reflexivity.
  - simpl. lia.
  - reflexivity.
  - exact Hshape.
Defined.

(** X5: on a response whose status is not 2xx the body is never read; the
    handler logs an [Error] with its fixed message (the status is not part
    of it), shows the failure message and resets [loading]. *)
Theorem submit_bad_status_trace openAiApiKey Number_toString net s response :
  trim (inputMessage s) <> [] ->
  net endpoint (request_init openAiApiKey Number_toString s) = Normal response ->
  ~ (200 <= status response <= 299) ->
  trace (submit openAiApiKey Number_toString net s)
  = [Performed PreventDefault; Performed (SetLoading true);
     Performed (SetOutputMessage []);
     Fetched endpoint (request_init openAiApiKey Number_toString s);
     Performed (ConsoleError (js "Error calling OpenAI API:")
                  (Error (js "Failed to fetch response from OpenAI API")));
     Performed (SetOutputMessage (js "Sorry, something went wrong. Please try again."));
     Performed (SetLoading false)].
Proof.
  intros Hinput Hnet Hstatus.
  rewrite (submit_nonblank _ _ _ _ Hinput). unfold trace, aftermath. cbn [fst snd].
  rewrite Hnet. cbn [reply_text].
  destruct (ok response) eqn:Hok; [apply ok_status in Hok; contradiction|].
  reflexivity.
Qed.

Lemma submit_bad_status_trace_witness :
  trim (inputMessage Sample.draft) <> []
  /\ ~ (200 <= 500 <= 299)
  /\ trace (submit Sample.key decimal_text Sample.server_error Sample.draft)
     = [Performed PreventDefault; Performed (SetLoading true);
        Performed (SetOutputMessage []);
        Fetched endpoint (request_init Sample.key decimal_text Sample.draft);
        Performed (ConsoleError (js "Error calling OpenAI API:")
                     (Error (js "Failed to fetch response from OpenAI API")));
        Performed (SetOutputMessage (js "Sorry, something went wrong. Please try again."));
        Performed (SetLoading false)].
Proof.
  split; [vm_compute; discriminate|]. split; [lia|].
  apply (submit_bad_status_trace Sample.key decimal_text Sample.server_error
           Sample.draft {| status := 500; json_body := Normal Sample.reply |}).
  - vm_compute. discriminate.
  - reflexivity.
  - simpl. lia.
Defined.

(** X6: when the network call is rejected, the rejection reason is what is
    logged; the failure message is shown and [loading] reset. *)
Theorem submit_rejected_trace openAiApiKey Number_toString net s reason :
  trim (inputMessage s) <> [] ->
  net endpoint (request_init openAiApiKey Number_toString s) = Throw reason ->
  trace (submit openAiApiKey Number_toString net s)
  = [Performed PreventDefault; Performed (SetLoading true);
     Performed (SetOutputMessage []);
     Fetched endpoint (request_init openAiApiKey Number_toString s);
     Performed (ConsoleError (js "Error calling OpenAI API:") reason);
     Performed (SetOutputMessage (js "Sorry, something went wrong. Please try again."));
     Performed (SetLoading false)].
Proof.
  intros Hinput Hnet.
  rewrite (submit_nonblank _ _ _ _ Hinput). unfold trace, aftermath. cbn [fst snd].
  rewrite Hnet. reflexivity.
Qed.

Lemma submit_rejected_trace_witness :
  trim (inputMessage Sample.draft) <> []
  /\ Sample.offline endpoint (request_init Sample.key decimal_text Sample.draft)
     = Throw TypeError
  /\ trace (submit Sample.key decimal_text Sample.offline Sample.draft)
     = [Performed PreventDefault; Performed (SetLoading true);
        Performed (SetOutputMessage []);
        Fetched endpoint (request_init Sample.key decimal_text Sample.draft);
        Performed (ConsoleError (js "Error calling OpenAI API:") TypeError);
        Performed (SetOutputMessage (js "Sorry, something went wrong. Please try again."));
        Performed (SetLoading false)].
Proof.
  split; [vm_compute; discriminate|]. split; [reflexivity|].
  apply (submit_rejected_trace Sample.key decimal_text Sample.offline Sample.draft
           TypeError).
  - vm_compute. discriminate.
  - reflexivity.
Defined.

(** X7: on a 2xx response whose parsed body has not the expected shape, the
    body is read and the reading of the content throws a [TypeError], which
    is logged; the failure message is shown and [loading] reset. *)
Theorem submit_unexpected_shape_trace openAiApiKey Number_toString net s response data :
  trim (inputMessage s) <> [] ->
  net endpoint (request_init openAiApiKey Number_toString s) = Normal response ->
  200 <= status response <= 299 ->
  json_body response = Normal data ->
  (forall text, ~ expected_shape data text) ->
  trace (submit openAiApiKey Number_toString net s)
  = [Performed PreventDefault; Performed (SetLoading true);
     Performed (SetOutputMessage []);
     Fetched endpoint (request_init openAiApiKey Number_toString s);
     ReadBody response;
     Performed (ConsoleError (js "Error calling OpenAI API:") TypeError);
     Performed (SetOutputMessage (js "Sorry, something went wrong. Please try again."));
     Performed (SetLoading false)].
Proof.
  intros Hinput Hnet Hstatus Hbody Hshape.
  rewrite (submit_nonblank _ _ _ _ Hinput). unfold trace, aftermath. cbn [fst snd].
  rewrite Hnet. cbn [reply_text]. apply ok_status in Hstatus.
  rewrite Hstatus, Hbody, (read_content_unexpected _ Hshape). reflexivity.
Qed.

Lemma unexpected_by_reading data :
  read_content data = Throw TypeError -> forall text, ~ expected_shape data text.
Proof.
  intros Hread text Hshape. rewrite (read_content_expected _ _ Hshape) in Hread.
  discriminate.
Qed.

Lemma submit_unexpected_shape_trace_witness :
  trim (inputMessage Sample.draft) <> []
  /\ 200 <= 200 <= 299
  /\ (forall text, ~ expected_shape Sample.empty_choices text)
  /\ trace (submit Sample.key decimal_text Sample.no_completion Sample.draft)
     = [Performed PreventDefault; Performed (SetLoading true);
        Performed (SetOutputMessage []);
        Fetched endpoint (request_init Sample.key decimal_text Sample.draft);
        ReadBody {| status := 200; json_body := Normal Sample.empty_choices |};
        Performed (ConsoleError (js "Error calling OpenAI API:") TypeError);
        Performed (SetOutputMessage (js "Sorry, something went wrong. Please try again."));
        Performed (SetLoading false)].
Proof.
  assert (Hshape : forall text, ~ expected_shape Sample.empty_choices text).
  { apply unexpected_by_reading. vm_compute. reflexivity. }
  split; [vm_compute; discriminate|]. split; [lia|]. split; [exact Hshape|].
  apply (submit_unexpected_shape_trace Sample.key decimal_text Sample.no_completion
           Sample.draft {| status := 200; json_body := Normal Sample.empty_choices |}
           Sample.empty_choices).
  - vm_compute. discriminate.
  - reflexivity.
  - simpl. lia.
  - reflexivity.
  - exact Hshape.
Defined.

(** ** Submitting again, and editing while a request is in flight *)

Lemma settle_fields s r :
  inputMessage (settle s r) = inputMessage s
  /\ mode (settle s r) = mode s
  /\ customInstruction (settle s r) = customInstruction s.
Proof. repeat split. Qed.

Lemma request_init_fields openAiApiKey Number_toString s1 s2 :
  inputMessage s1 = inputMessage s2 ->
  mode s1 = mode s2 ->
  customInstruction s1 = customInstruction s2 ->
  request_init openAiApiKey Number_toString s1
  = request_init openAiApiKey Number_toString s2.
Proof.
  intros Hinput Hmode Hcustom. unfold request_init, getModeInstruction.
  rewrite Hinput, Hmode, Hcustom. reflexivity.
Qed.

(** X8: nothing of an earlier submission is left in a later one: submitting
    from the state an earlier submission ended in gives the same final state
    as submitting from the state before it. *)
Theorem resubmit_forgets openAiApiKey Number_toString net1 net2 s :
  final_state
    (submit openAiApiKey Number_toString net2
       (final_state (submit openAiApiKey Number_toString net1 s)))
  = final_state (submit openAiApiKey Number_toString net2 s).
Proof.
  destruct (submit_cases openAiApiKey Number_toString net1 s)
    as [[_ [_ ->]]|[Hinput [_ ->]]]; [reflexivity|].
  unfold final_state at 2. cbn [fst].
  set (r1 := net1 endpoint (request_init openAiApiKey Number_toString s)).
  assert (Hinput' : trim (inputMessage (settle s r1)) <> []) by exact Hinput.
  rewrite (submit_nonblank _ _ _ _ Hinput'), (submit_nonblank _ _ _ _ Hinput).
  unfold final_state. cbn [fst].
  rewrite (request_init_fields openAiApiKey Number_toString (settle s r1) s)
    by reflexivity.
  reflexivity.
Qed.

(** A change of the state that commutes with the actions of a program can
    be made before the program runs or after it, to the same effect. *)
Lemma run_commutes {A : Type} net (edit : FormState -> FormState) (t : task A) :
  (forall a s, apply_action a (edit s) = edit (apply_action a s)) ->
  forall s,
    run net t (edit s)
    = let '(s', tr, r) := run net t s in (edit s', tr, r).
Proof.
  intros Hedit.
  induction t as [r|a k IH|url init k IH|response k IH]; intros s; cbn [run].
  - reflexivity.
  - rewrite Hedit, IH. destruct (run net k (apply_action a s)) as [[s' tr] r].
    reflexivity.
  - rewrite IH. destruct (run net (k (net url init)) s) as [[s' tr] r].
    reflexivity.
  - rewrite IH. destruct (run net (k (json_body response)) s) as [[s' tr] r].
    reflexivity.
Qed.

(** X9: what the user types or selects after submitting is not lost and does
    not reach the request on its way: the handler submitted from [s], run on
    a state edited since by one of the three change handlers, makes the
    events of the unedited run and ends in its final state with the edit
    applied. *)
Theorem edits_survive_submission openAiApiKey Number_toString net s v :
  run net (handleSubmit openAiApiKey Number_toString s) (handleInputChange v s)
  = (handleInputChange v (final_state (submit openAiApiKey Number_toString net s)),
     trace (submit openAiApiKey Number_toString net s), Normal tt)
  /\ run net (handleSubmit openAiApiKey Number_toString s) (handleModeChange v s)
     = (handleModeChange v (final_state (submit openAiApiKey Number_toString net s)),
        trace (submit openAiApiKey Number_toString net s), Normal tt)
  /\ run net (handleSubmit openAiApiKey Number_toString s)
       (handleCustomInstructionChange v s)
     = (handleCustomInstructionChange v
          (final_state (submit openAiApiKey Number_toString net s)),
        trace (submit openAiApiKey Number_toString net s), Normal tt).
Proof.
  assert (Hnormal : (submit openAiApiKey Number_toString net s).2 = Normal tt).
  { destruct (submit_cases openAiApiKey Number_toString net s)
      as [[_ [_ ->]]|[_ [_ ->]]]; reflexivity. }
  unfold final_state, trace. unfold submit in *.
  destruct (run net (handleSubmit openAiApiKey Number_toString s) s)
    as [[s' tr] r] eqn:Hrun.
  cbn [fst snd] in *. subst r.
  repeat split.
  - rewrite (run_commutes net (handleInputChange v)), Hrun; [reflexivity|].
    intros [| b | o | label error] s0; reflexivity.
  - rewrite (run_commutes net (handleModeChange v)), Hrun; [reflexivity|].
    intros [| b | o | label error] s0; reflexivity.
  - rewrite (run_commutes net (handleCustomInstructionChange v)), Hrun; [reflexivity|].
    intros [| b | o | label error] s0; reflexivity.
Qed.

(** ** What is displayed *)

Lemma reply_text_trimmed r shown :
  reply_text r = Normal shown -> exists text, shown = trim text.
Proof.
  destruct r as [response|e]; cbn [reply_text]; [|discriminate].
  destruct (ok response); [|discriminate].
  destruct (json_body response) as [data|e]; [|discriminate].
  intros H. apply read_content_Normal in H as [text [_ ->]]. eauto.
Qed.

Lemma settled_output s r :
  outputMessage (settle s r) = failure_message
  \/ exists text, outputMessage (settle s r) = trim text.
Proof.
  unfold settle. cbn [outputMessage].
  destruct (reply_text r) as [shown|e] eqn:Hreply; [right|left; reflexivity].
  exact (reply_text_trimmed _ _ Hreply).
Qed.

(** X10: after a submission that passed the guard, [outputMessage] neither
    starts nor ends with white space, whatever the network answered. *)
Theorem settled_output_trimmed openAiApiKey Number_toString net s :
  forallb is_white_space (inputMessage s) = false ->
  (forall c rest,
     outputMessage (final_state (submit openAiApiKey Number_toString net s))
     = c :: rest -> is_white_space c = false)
  /\ (forall front c,
       outputMessage (final_state (submit openAiApiKey Number_toString net s))
       = front ++ [c] -> is_white_space c = false).
Proof.
  intros Hinput.
  destruct (submit_cases openAiApiKey Number_toString net s)
    as [[_ [Hwhite _]]|[_ [_ ->]]]; [congruence|].
  unfold final_state. cbn [fst].
  destruct (settled_output s
              (net endpoint (request_init openAiApiKey Number_toString s)))
    as [->|[text ->]].
  - split.
    + intros c rest H. injection H as <- _. reflexivity.
    + intros front c H.
      assert (Hlast : last failure_message = Some c).
      { rewrite H. apply last_snoc. }
      vm_compute in Hlast. injection Hlast as <-. reflexivity.
  - split; [apply trim_head | apply trim_last].
Qed.

Lemma settled_output_trimmed_witness :
  forallb is_white_space (inputMessage Sample.draft) = false
  /\ (forall c rest,
        outputMessage
          (final_state (submit Sample.key decimal_text Sample.success Sample.draft))
        = c :: rest -> is_white_space c = false)
  /\ (forall front c,
        outputMessage
          (final_state (submit Sample.key decimal_text Sample.success Sample.draft))
        = front ++ [c] -> is_white_space c = false).
Proof.
  split; [vm_compute; reflexivity|].
  apply (settled_output_trimmed Sample.key decimal_text Sample.success Sample.draft).
  vm_compute. reflexivity.
Defined.

(** ** The instruction *)

Lemma Object_prototype_lookup_None key :
  Object_prototype !! key = None <-> ~ In key inherited_keys.
Proof.
  unfold Object_prototype, inherited_keys.
  rewrite !lookup_insert_None, lookup_empty. cbn [In]. intuition congruence.
Qed.

Lemma Object_prototype_values key v :
  Object_prototype !! key = Some v ->
  v = VObjectPrototype \/ exists name, v = VNative name.
Proof.
  unfold Object_prototype. intros H.
  repeat (apply lookup_insert_Some in H as [[_ <-]|[_ H]]; [eauto|]).
  rewrite lookup_empty in H. discriminate.
Qed.

Lemma MODE_INSTRUCTIONS_lookup_None key :
  MODE_INSTRUCTIONS !! key = None <-> ~ In key enumerated_modes.
Proof.
  rewrite MODE_INSTRUCTIONS_enumerated, eq_None_not_Some. reflexivity.
Qed.

(** What the expression [MODE_INSTRUCTIONS[mode] || default] evaluates to. *)
Lemma base_instruction_cases key :
  (exists entry, MODE_INSTRUCTIONS !! key = Some entry
     /\ logical_or (MODE_INSTRUCTIONS_get key) (VString default_instruction)
        = VString entry)
  \/ (MODE_INSTRUCTIONS !! key = None
      /\ exists v, Object_prototype !! key = Some v
           /\ logical_or (MODE_INSTRUCTIONS_get key) (VString default_instruction) = v)
  \/ (MODE_INSTRUCTIONS !! key = None /\ Object_prototype !! key = None
      /\ logical_or (MODE_INSTRUCTIONS_get key) (VString default_instruction)
         = VString default_instruction).
Proof.
  unfold MODE_INSTRUCTIONS_get, logical_or.
  destruct (MODE_INSTRUCTIONS !! key) as [entry|] eqn:Hown.
  - left. exists entry. rewrite (catalogue_entry_truthy _ _ Hown). eauto.
  - destruct (Object_prototype !! key) as [v|] eqn:Hproto.
    + right. left. split; [reflexivity|]. exists v. split; [reflexivity|].
      destruct (Object_prototype_values _ _ Hproto) as [->|[name ->]]; reflexivity.
    + right. right. eauto.
Qed.

(** X11: the instruction is never empty: whatever the mode and the custom
    instruction, [getModeInstruction] returns a truthy value whose text has
    at least one code unit. *)
Theorem getModeInstruction_never_empty s :
  ToBoolean (getModeInstruction s) = true
  /\ ToString (getModeInstruction s) <> [].
Proof.
  assert (Hbase : forall base,
    logical_or (MODE_INSTRUCTIONS_get (mode s)) (VString default_instruction) = base ->
    ToBoolean base = true /\ ToString base <> []).
  { intros base <-.
    destruct (base_instruction_cases (mode s))
      as [[entry [Hown ->]]|[[_ [v [Hproto ->]]]|[_ [_ ->]]]].
    - pose proof (catalogue_entry_truthy _ _ Hown) as Htruthy.
      split; [exact Htruthy|]. destruct entry; [discriminate|]. discriminate.
    - destruct (Object_prototype_values _ _ Hproto) as [->|[name ->]];
        split; try reflexivity; discriminate.
    - split; [reflexivity | discriminate]. }
  destruct (Hbase _ eq_refl) as [Htruthy Htext].
  destruct (getModeInstruction_base s _ eq_refl) as [Hempty Hcustom].
  destruct (customInstruction s) as [|c cs] eqn:Hc.
  - rewrite (Hempty eq_refl). split; assumption.
  - rewrite Hcustom by discriminate. cbn [ToBoolean ToString]. split.
    + destruct (ToString _); [contradiction|reflexivity].
    + destruct (ToString _); [contradiction|discriminate].
Qed.

Lemma catalogue_entry_not_default key entry tail1 tail2 :
  MODE_INSTRUCTIONS !! key = Some entry ->
  entry ++ tail1 <> default_instruction ++ tail2.
Proof.
  intros H. apply MODE_INSTRUCTIONS_lookup in H.
  destruct H as [[_ ->]|[[_ ->]|[[_ ->]|[_ ->]]]]; discriminate.
Qed.

Lemma inherited_text_not_default key v tail1 tail2 :
  Object_prototype !! key = Some v ->
  ToString v ++ tail1 <> default_instruction ++ tail2.
Proof.
  intros H. destruct (Object_prototype_values _ _ H) as [->|[name ->]]; discriminate.
Qed.

(** X12: the fallback instruction (the generic string, with the custom
    instruction after a space when there is one) is what
    [getModeInstruction] returns exactly for the modes that are neither a
    key of the catalogue nor a key inherited from [Object.prototype]. *)
Theorem getModeInstruction_fallback_iff s :
  getModeInstruction s = fallback_instruction s
  <-> ~ In (mode s) enumerated_modes /\ ~ In (mode s) inherited_keys.
Proof.
  rewrite <- MODE_INSTRUCTIONS_lookup_None, <- Object_prototype_lookup_None.
  unfold fallback_instruction.
  destruct (getModeInstruction_base s _ eq_refl) as [Hempty Hcustom].
  split.
  - intros Hresult.
    destruct (base_instruction_cases (mode s))
      as [[entry [Hown Hbase]]|[[Hown [v [Hproto Hbase]]]|[Hown [Hproto _]]]];
      [exfalso | exfalso | split; assumption];
      rewrite Hbase in Hempty, Hcustom;
      destruct (customInstruction s) as [|c cs] eqn:Hc.
    + rewrite (Hempty eq_refl) in Hresult. injection Hresult as Hresult.
      apply (catalogue_entry_not_default _ _ [] [] Hown).
      rewrite !app_nil_r. exact Hresult.
    + rewrite Hcustom in Hresult by discriminate. injection Hresult as Hresult.
      exact (catalogue_entry_not_default _ _ _ _ Hown Hresult).
    + rewrite (Hempty eq_refl) in Hresult.
      destruct (Object_prototype_values _ _ Hproto) as [->|[name ->]]; discriminate.
    + rewrite Hcustom in Hresult by discriminate. injection Hresult as Hresult.
      exact (inherited_text_not_default _ _ _ _ Hproto Hresult).
  - intros [Hown Hproto].
    destruct (getModeInstruction_fallback s Hown Hproto) as [Hempty' Hcustom'].
    destruct (customInstruction s) as [|c cs]; [apply Hempty'; reflexivity|].
    apply Hcustom'. discriminate.
Qed.

(** ** The prompt, again *)

(** X13: the template does not delimit its holes: the text of an
    instruction section placed in the input gives the very content that the
    same text gives when it starts the instruction. *)
Theorem AI_PROMPT_ambiguous (a b c : jstring) :
  AI_PROMPT (a ++ [LF; LF] ++ js "Instructions:" ++ [LF] ++ b) (VString c)
  = AI_PROMPT a (VString (b ++ [LF; LF] ++ js "Instructions:" ++ [LF] ++ c)).
Proof.
  unfold AI_PROMPT. cbn [ToString].
  change [LF; LF] with ([LF] ++ [LF]).
  rewrite <- !app_assoc. reflexivity.
Qed.

(** ** Where a request goes *)

(** X14: every request of a submission is a POST to the chat-completion
    endpoint with exactly two headers: the JSON content type and
    [Authorization], the word Bearer, a space and the text of the configured
    key (the text [undefined] when no key is configured). *)
Theorem request_target openAiApiKey Number_toString net s url init :
  In (Fetched url init) (trace (submit openAiApiKey Number_toString net s)) ->
  url = js "https://api.openai.com/v1/chat/completions"
  /\ method init = js "POST"
  /\ headers init
     = [ (js "Content-Type", js "application/json");
         (js "Authorization",
          js "Bearer "
          ++ match openAiApiKey with
             | VString k => k
             | VUndefined => js "undefined"
             | other => ToString other
             end) ].
Proof.
  intros Hin. apply fetched_in_submit in Hin as [_ [-> ->]].
  split; [reflexivity|]. split; [reflexivity|].
  destruct openAiApiKey; reflexivity.
Qed.

Lemma request_target_witness :
  In (Fetched endpoint (request_init Sample.no_key decimal_text Sample.draft))
     (trace (submit Sample.no_key decimal_text Sample.success Sample.draft))
  /\ endpoint = js "https://api.openai.com/v1/chat/completions"
  /\ method (request_init Sample.no_key decimal_text Sample.draft) = js "POST"
  /\ headers (request_init Sample.no_key decimal_text Sample.draft)
     = [ (js "Content-Type", js "application/json");
         (js "Authorization", js "Bearer " ++ js "undefined") ].
Proof.
  assert (Hin : In (Fetched endpoint (request_init Sample.no_key decimal_text Sample.draft))
                  (trace (submit Sample.no_key decimal_text Sample.success Sample.draft))).
  { vm_compute. right. right. right. left. reflexivity. }
  split; [exact Hin|].
  exact (request_target Sample.no_key decimal_text Sample.success Sample.draft
           endpoint (request_init Sample.no_key decimal_text Sample.draft) Hin).
Defined.

(** ** The page during and after a submission *)

(** X15: while the request is in flight the submit button is disabled and
    reads Formatting..., no output block is rendered (an earlier answer is
    gone) and nothing scrolls; the three inputs show what they showed. *)
Theorem view_in_flight openAiApiKey Number_toString s :
  forallb is_white_space (inputMessage s) = false ->
  exists tr s1 url init k,
    run_to_await (handleSubmit openAiApiKey Number_toString s) s
    = (tr, WaitingForFetch s1 url init k)
    /\ render s1
       = {| input_value := inputMessage s; select_value := mode s;
            custom_value := customInstruction s;
            submit_disabled := true; submit_label := js "Formatting...";
            output_html := None |}
    /\ scrolls_into_view s1 = false.
Proof.
  intros Hinput. unfold handleSubmit.
  destruct (trim (inputMessage s)) as [|c cs] eqn:Htrim.
  - apply trim_empty_iff in Htrim. congruence.
  - cbn -[js endpoint request_init read_content].
    eexists _, _, _, _, _. split; [reflexivity|]. split; reflexivity.
Qed.

Lemma view_in_flight_witness :
  forallb is_white_space (inputMessage Sample.answered) = false
  /\ exists tr s1 url init k,
       run_to_await (handleSubmit Sample.key decimal_text Sample.answered)
         Sample.answered
       = (tr, WaitingForFetch s1 url init k)
       /\ render s1
          = {| input_value := inputMessage Sample.answered;
               select_value := mode Sample.answered;
               custom_value := customInstruction Sample.answered;
               submit_disabled := true; submit_label := js "Formatting...";
               output_html := None |}
       /\ scrolls_into_view s1 = false.
Proof.
  split; [vm_compute; reflexivity|].
  apply (view_in_flight Sample.key decimal_text Sample.answered).
  vm_compute. reflexivity.
Defined.

(** X16: after a failed submission the button is enabled again and reads
    Format Message, the output block holds the failure message, and the
    block is scrolled into view. *)
Theorem view_after_failure openAiApiKey Number_toString net s :
  trim (inputMessage s) <> [] ->
  failed (net endpoint (request_init openAiApiKey Number_toString s)) ->
  render (final_state (submit openAiApiKey Number_toString net s))
  = {| input_value := inputMessage s; select_value := mode s;
       custom_value := customInstruction s;
       submit_disabled := false; submit_label := js "Format Message";
       output_html := Some (js "Sorry, something went wrong. Please try again.") |}
  /\ scrolls_into_view (final_state (submit openAiApiKey Number_toString net s))
     = true.
Proof.
  intros Hinput Hfailed.
  rewrite (submit_nonblank _ _ _ _ Hinput). unfold final_state. cbn [fst].
  apply failed_reply_text in Hfailed as [e He].
  unfold render, scrolls_into_view, settle. cbn [outputMessage loading inputMessage
    mode customInstruction]. rewrite He. split; reflexivity.
Qed.

Lemma view_after_failure_witness :
  trim (inputMessage Sample.draft) <> []
  /\ failed (Sample.offline endpoint
               (request_init Sample.key decimal_text Sample.draft))
  /\ render (final_state (submit Sample.key decimal_text Sample.offline Sample.draft))
     = {| input_value := inputMessage Sample.draft;
          select_value := mode Sample.draft;
          custom_value := customInstruction Sample.draft;
          submit_disabled := false; submit_label := js "Format Message";
          output_html :=
            Some (js "Sorry, something went wrong. Please try again.") |}
  /\ scrolls_into_view
       (final_state (submit Sample.key decimal_text Sample.offline Sample.draft))
     = true.
Proof.
  split; [vm_compute; discriminate|]. split; [apply network_error|].
  apply (view_after_failure Sample.key decimal_text Sample.offline Sample.draft).
  - vm_compute. discriminate.
  - apply network_error.
Defined.

(** X17: after a successful submission the button is enabled again, and the
    output block holds the trimmed content as it came, with no escaping, as
    its inner HTML; when the content is white space only, no block is
    rendered at all and nothing scrolls. *)
Theorem view_after_success openAiApiKey Number_toString net s response data text :
  trim (inputMessage s) <> [] ->
  net endpoint (request_init openAiApiKey Number_toString s) = Normal response ->
  200 <= status response <= 299 ->
  json_body response = Normal data ->
  expected_shape data text ->
  render (final_state (submit openAiApiKey Number_toString net s))
  = {| input_value := inputMessage s; select_value := mode s;
       custom_value := customInstruction s;
       submit_disabled := false; submit_label := js "Format Message";
       output_html :=
         if forallb is_white_space text then None else Some (trim text) |}
  /\ scrolls_into_view (final_state (submit openAiApiKey Number_toString net s))
     = negb (forallb is_white_space text).
Proof.
  intros Hinput Hnet Hstatus Hbody Hshape.
  rewrite (submit_nonblank _ _ _ _ Hinput). unfold final_state. cbn [fst].
  assert (Hreply : reply_text (net endpoint (request_init openAiApiKey Number_toString s))
                   = Normal (trim text)).
  { rewrite Hnet. cbn [reply_text]. apply ok_status in Hstatus.
    rewrite Hstatus, Hbody. exact (read_content_expected _ _ Hshape). }
  unfold render, scrolls_into_view, settle. cbn [outputMessage loading inputMessage
    mode customInstruction]. rewrite Hreply.
  destruct (forallb is_white_space text) eqn:Hwhite.
  - rewrite (trim_all_white _ Hwhite). split; reflexivity.
  - destruct (trim text) as [|c cs] eqn:Htrim.
    + apply trim_empty_iff in Htrim. congruence.
    + split; reflexivity.
Qed.

Lemma view_after_success_witness :
  trim (inputMessage Sample.draft) <> []
  /\ 200 <= 200 <= 299
  /\ expected_shape Sample.reply (js " Hello, client. ")
  /\ render (final_state (submit Sample.key decimal_text Sample.success Sample.draft))
     = {| input_value := inputMessage Sample.draft;
          select_value := mode Sample.draft;
          custom_value := customInstruction Sample.draft;
          submit_disabled := false; submit_label := js "Format Message";
          output_html :=
            if forallb is_white_space (js " Hello, client. ") then None
            else Some (trim (js " Hello, client. ")) |}
  /\ scrolls_into_view
       (final_state (submit Sample.key decimal_text Sample.success Sample.draft))
     = negb (forallb is_white_space (js " Hello, client. ")).
Proof.
  assert (Hshape : expected_shape Sample.reply (js " Hello, client. ")).
  { unfold Sample.reply. eapply shape.
    - vm_compute. reflexivity.
    - apply zero_of_array.
    - vm_compute. reflexivity.
    - vm_compute. reflexivity. }
  split; [vm_compute; discriminate|]. split; [lia|]. split; [exact Hshape|].
  apply (view_after_success Sample.key decimal_text Sample.success Sample.draft
           {| status := 200; json_body := Normal Sample.reply |}
           Sample.reply (js " Hello, client. ")).
  - vm_compute. discriminate.
  - reflexivity.
  - simpl. lia.
  - reflexivity.
  - exact Hshape.
Defined.

(** ** The request body can be read back *)

Lemma hex_value_digit d : 0 <= d < 16 -> hex_value (hex_digit d) = d.
Proof.
  intros Hd. unfold hex_digit, hex_value.
  destruct (Z.ltb_spec d 10).
  - destruct (Z.ltb_spec (48 + d) 58); lia.
  - destruct (Z.ltb_spec (87 + d) 58); lia.
Qed.

Lemma unicode_escape_value c :
  code_unit c = true ->
  4096 * hex_value (hex_digit (c / 4096 mod 16))
  + 256 * hex_value (hex_digit (c / 256 mod 16))
  + 16 * hex_value (hex_digit (c / 16 mod 16))
  + hex_value (hex_digit (c mod 16)) = c.
Proof.
  unfold code_unit. rewrite andb_true_iff, Z.leb_le, Z.ltb_lt. intros Hc.
  rewrite !hex_value_digit by (apply Z.mod_pos_bound; lia).
  Z.div_mod_to_equations. lia.
Qed.

Lemma read_plain c t :
  c <> 34 -> c <> 92 ->
  read_json_string (c :: t) = prepend c (read_json_string t).
Proof.
  intros H34 H92. cbn [read_json_string].
  apply Z.eqb_neq in H34, H92. rewrite H34, H92. reflexivity.
Qed.

Lemma read_unicode_escape c t :
  code_unit c = true ->
  read_json_string (UnicodeEscape c ++ t) = prepend c (read_json_string t).
Proof.
  intros Hc. unfold UnicodeEscape. cbn [app read_json_string].
  change (92 =? 34) with false. change (92 =? 92) with true.
  change (117 =? 117) with true. cbv iota.
  rewrite (unicode_escape_value c Hc). reflexivity.
Qed.

Lemma read_quote_unit c t :
  code_unit c = true ->
  read_json_string (quote_unit c ++ t) = prepend c (read_json_string t).
Proof.
  intros Hc. unfold quote_unit.
  destruct (Z.eqb_spec c 8) as [->|H8]; [reflexivity|].
  destruct (Z.eqb_spec c 9) as [->|H9]; [reflexivity|].
  destruct (Z.eqb_spec c 10) as [->|H10]; [reflexivity|].
  destruct (Z.eqb_spec c 12) as [->|H12]; [reflexivity|].
  destruct (Z.eqb_spec c 13) as [->|H13]; [reflexivity|].
  destruct (Z.eqb_spec c 34) as [->|H34]; [reflexivity|].
  destruct (Z.eqb_spec c 92) as [->|H92]; [reflexivity|].
  destruct ((c <? 32) || is_leading_surrogate c || is_trailing_surrogate c).
  - exact (read_unicode_escape c t Hc).
  - exact (read_plain c t H34 H92).
Qed.

Lemma surrogate_plain c :
  is_leading_surrogate c = true \/ is_trailing_surrogate c = true ->
  c <> 34 /\ c <> 92.
Proof.
  unfold is_leading_surrogate, is_trailing_surrogate.
  rewrite !andb_true_iff, !Z.leb_le. lia.
Qed.

Lemma quote_units_pair c d rest :
  quote_units (c :: d :: rest)
  = if is_leading_surrogate c && is_trailing_surrogate d
    then c :: d :: quote_units rest
    else quote_unit c ++ quote_units (d :: rest).
Proof. reflexivity. Qed.

(** The characters [QuoteJSONString] writes between the quotation marks
    read back as the string they were written from, and the reading stops
    at the closing mark. *)
Lemma read_quote_units n : forall s after,
  (length s <= n)%nat ->
  forallb code_unit s = true ->
  read_json_string (quote_units s ++ 34 :: after) = Some (s, after).
Proof.
  induction n as [|n IH]; intros s after Hlen Hunits.
  - destruct s; [reflexivity | simpl in Hlen; lia].
  - destruct s as [|c [|d rest]].
    + reflexivity.
    + cbn [forallb] in Hunits. apply andb_prop in Hunits as [Hc _].
      cbn [quote_units]. rewrite (read_quote_unit c _ Hc). reflexivity.
    + cbn [forallb] in Hunits. apply andb_prop in Hunits as [Hc Hrest].
      rewrite quote_units_pair.
      destruct (is_leading_surrogate c && is_trailing_surrogate d) eqn:Hpair.
      * apply andb_prop in Hpair as [Hlead Htrail].
        apply andb_prop in Hrest as [_ Hrest].
        destruct (surrogate_plain c (or_introl Hlead)) as [Hc34 Hc92].
        destruct (surrogate_plain d (or_intror Htrail)) as [Hd34 Hd92].
        cbn [app]. rewrite (read_plain c _ Hc34 Hc92), (read_plain d _ Hd34 Hd92).
        rewrite (IH rest after); [reflexivity | simpl in Hlen; lia | exact Hrest].
      * rewrite <- app_assoc, (read_quote_unit c _ Hc).
        rewrite (IH (d :: rest) after); [reflexivity | simpl in *; lia | exact Hrest].
Qed.

Lemma QuoteJSONString_inj s1 s2 after1 after2 :
  forallb code_unit s1 = true ->
  forallb code_unit s2 = true ->
  QuoteJSONString s1 ++ after1 = QuoteJSONString s2 ++ after2 ->
  s1 = s2 /\ after1 = after2.
Proof.
  intros H1 H2 Heq. unfold QuoteJSONString in Heq.
  rewrite <- !app_assoc in Heq. cbn [app] in Heq. injection Heq as Heq.
  apply (f_equal read_json_string) in Heq.
  rewrite (read_quote_units (length s1) s1 after1) in Heq by (auto; lia).
  rewrite (read_quote_units (length s2) s2 after2) in Heq by (auto; lia).
  injection Heq as -> ->. split; reflexivity.
Qed.

Lemma body_text openAiApiKey Number_toString s :
  body (request_init openAiApiKey Number_toString s)
  = (json_text "{'model':'gpt-4','messages':[{'role':'system','content':"
     ++ QuoteJSONString SYSTEM_MESSAGE
     ++ json_text "},{'role':'user','content':")
    ++ QuoteJSONString (AI_PROMPT (inputMessage s) (getModeInstruction s))
    ++ json_text "}],'max_tokens':" ++ Number_toString 1000%Q
    ++ json_text ",'temperature':" ++ Number_toString 0.5%Q ++ json_text "}".
Proof.
  cbn [request_init body]. unfold JSON_stringify, stringify_message.
  cbn [model messages max_tokens temperature role content map comma_separated].
  generalize (QuoteJSONString SYSTEM_MESSAGE)
    (QuoteJSONString (AI_PROMPT (inputMessage s) (getModeInstruction s)))
    (Number_toString 1000%Q) (Number_toString 0.5%Q).
  intros system user tokens temp. rewrite <- !app_assoc.
  vm_compute. reflexivity.
Qed.

Lemma Object_prototype_code_units key v :
  Object_prototype !! key = Some v -> forallb code_unit (ToString v) = true.
Proof.
  unfold Object_prototype. intros H.
  repeat (apply lookup_insert_Some in H as [[_ <-]|[_ H]];
          [vm_compute; reflexivity|]).
  rewrite lookup_empty in H. discriminate.
Qed.

Lemma getModeInstruction_code_units s :
  forallb code_unit (customInstruction s) = true ->
  forallb code_unit (ToString (getModeInstruction s)) = true.
Proof.
  intros Hcustom.
  assert (Hbase : forall base,
    logical_or (MODE_INSTRUCTIONS_get (mode s)) (VString default_instruction) = base ->
    forallb code_unit (ToString base) = true).
  { intros base <-.
    destruct (base_instruction_cases (mode s))
      as [[entry [Hown ->]]|[[_ [v [Hproto ->]]]|[_ [_ ->]]]].
    - apply MODE_INSTRUCTIONS_lookup in Hown.
      destruct Hown as [[_ ->]|[[_ ->]|[[_ ->]|[_ ->]]]]; vm_compute; reflexivity.
    - exact (Object_prototype_code_units _ _ Hproto).
    - vm_compute. reflexivity. }
  destruct (getModeInstruction_base s _ eq_refl) as [Hempty Hnonempty].
  destruct (customInstruction s) as [|c cs] eqn:Hc.
  - rewrite (Hempty eq_refl). apply Hbase. reflexivity.
  - rewrite Hnonempty by discriminate. cbn [ToString].
    rewrite !forallb_app, (Hbase _ eq_refl), Hcustom. reflexivity.
Qed.

Lemma AI_PROMPT_code_units userInput v :
  forallb code_unit userInput = true ->
  forallb code_unit (ToString v) = true ->
  forallb code_unit (AI_PROMPT userInput v) = true.
Proof.
  intros Hinput Hv. unfold AI_PROMPT.
  rewrite !forallb_app, Hinput, Hv. vm_compute. reflexivity.
Qed.

(** X18: the request body carries the user message without loss: two
    states whose requests have the same body text have the same user
    message content, so no input can pass for another one, or close the
    JSON string it is written in. *)
Theorem request_body_injective openAiApiKey Number_toString s1 s2 :
  forallb code_unit (inputMessage s1) = true ->
  forallb code_unit (customInstruction s1) = true ->
  forallb code_unit (inputMessage s2) = true ->
  forallb code_unit (customInstruction s2) = true ->
  body (request_init openAiApiKey Number_toString s1)
  = body (request_init openAiApiKey Number_toString s2) ->
  AI_PROMPT (inputMessage s1) (getModeInstruction s1)
  = AI_PROMPT (inputMessage s2) (getModeInstruction s2).
Proof.
  intros Hi1 Hc1 Hi2 Hc2 Hbody. rewrite !body_text in Hbody.
  apply app_inv_head in Hbody.
  apply QuoteJSONString_inj in Hbody as [Hcontent _]; [exact Hcontent| |];
    apply AI_PROMPT_code_units; auto using getModeInstruction_code_units.
Qed.

Lemma request_body_injective_witness :
  forallb code_unit (inputMessage Sample.draft) = true
  /\ forallb code_unit (customInstruction Sample.draft) = true
  /\ forallb code_unit (inputMessage Sample.answered) = true
  /\ forallb code_unit (customInstruction Sample.answered) = true
  /\ body (request_init Sample.key decimal_text Sample.draft)
     = body (request_init Sample.key decimal_text Sample.answered)
  /\ AI_PROMPT (inputMessage Sample.draft) (getModeInstruction Sample.draft)
     = AI_PROMPT (inputMessage Sample.answered) (getModeInstruction Sample.answered).
Proof.
  split; [vm_compute; reflexivity|]. split; [reflexivity|].
  split; [vm_compute; reflexivity|]. split; [reflexivity|].
  split; [reflexivity|].
  apply (request_body_injective Sample.key decimal_text Sample.draft Sample.answered).
  - vm_compute. reflexivity.
  - reflexivity.
  - vm_compute. reflexivity.
  - reflexivity.
  - reflexivity.
Defined.

(** ** What the reading of the body looks at *)

(** X19: of a parsed body only the first element of [choices] is read:
    further completions and every other property of the body make no
    difference. *)
Theorem read_content_first_choice (props : gmap jstring json) first rest :
  read_content (JObject (<[js "choices" := JArray (first :: rest)]> props))
  = read_content (JObject {[ js "choices" := JArray [first] ]}).
Proof.
  rewrite !read_content_unfold. cbn [GetV key_name].
  rewrite lookup_insert_eq, lookup_singleton_eq. reflexivity.
Qed.

(** X20: a body with no [choices], one whose [choices] is an empty array,
    and one whose first completion has [null] for content all make the
    reading throw a [TypeError]. *)
Theorem read_content_missing (props first_props message_props : gmap jstring json) :
  read_content (JObject (delete (js "choices") props)) = Throw TypeError
  /\ read_content (JObject (<[js "choices" := JArray []]> props)) = Throw TypeError
  /\ read_content
       (JObject (<[js "choices" :=
          JArray [JObject (<[js "message" :=
            JObject (<[js "content" := JNull]> message_props)]> first_props)]]>
          props))
     = Throw TypeError.
Proof.
  split; [|split].
  - rewrite read_content_unfold. cbn [GetV key_name].
    rewrite lookup_delete_eq. reflexivity.
  - rewrite read_content_unfold. cbn [GetV key_name].
    rewrite lookup_insert_eq. reflexivity.
  - rewrite read_content_unfold. cbn [GetV key_name].
    rewrite lookup_insert_eq. cbn [GetV key_name head].
    rewrite lookup_insert_eq. cbn [GetV key_name].
    rewrite lookup_insert_eq. reflexivity.
Qed.
